(** * PlayAudioEngine (hello-oboe): playback engine of the Oboe sample

    A shallow embedding of [oboe/hello-oboe/src/main/cpp/PlayAudioEngine.cpp].

    - Fixed-width integers are [Z] with the two's complement wrap-around
      written out (module [Int]); signed overflow, undefined in C++, is
      modelled as the wrap-around the Android targets perform.
    - [double] is IEEE-754 binary64, through the Standard Library's
      executable specification of floating point ([SpecFloat]).
    - The Oboe stream, the builder, the sine oscillators, the latency tuner,
      the clock, the logger and the tracer are external: every call to them
      is recorded as an [event] in a history, and what the call answers is
      given by a [Platform], an arbitrary function of the history so far.
    - The engine's methods run in a state monad over the engine's fields and
      the history, with a fault ([None]) for a null dereference, an integer
      division by zero and a [memset] past the end of the buffer. *)

From Stdlib Require Import ZArith List String Bool Lia.
From Stdlib Require Import Floats.SpecFloat.
Import ListNotations.
Local Open Scope Z_scope.

(** ** Machine integers *)

Module Int.

Definition wrap (bits x : Z) : Z :=
  (x + 2 ^ (bits - 1)) mod 2 ^ bits - 2 ^ (bits - 1).

Definition in_range (bits x : Z) : Prop :=
  - 2 ^ (bits - 1) <= x < 2 ^ (bits - 1).

Definition i32 : Z -> Z := wrap 32.
Definition i64 : Z -> Z := wrap 64.

Definition max64 : Z := 2 ^ 63 - 1.
Definition min64 : Z := - 2 ^ 63.

(** [int32_t * int32_t] *)
Definition mul32 (a b : Z) : Z := i32 (a * b).

(** [int64_t] arithmetic; [/] truncates towards zero. *)
Definition add64 (a b : Z) : Z := i64 (a + b).
Definition sub64 (a b : Z) : Z := i64 (a - b).
Definition mul64 (a b : Z) : Z := i64 (a * b).
Definition div64 (a b : Z) : option Z :=
  if b =? 0 then None else Some (i64 (Z.quot a b)).

(** Conversion to an unsigned type of [bits] bits, and its product. *)
Definition to_unsigned (bits x : Z) : Z := x mod 2 ^ bits.
Definition umul (bits a b : Z) : Z := (a * b) mod 2 ^ bits.

End Int.

(** ** double *)

Definition double : Type := spec_float.

(** [(double) x] for an [int64_t] [x]: round to nearest, ties to even. *)
Definition double_of_int64 (x : Z) : double := binary_normalize 53 1024 x 0 false.

Definition double_div (x y : double) : double := SFdiv 53 1024 x y.

(** ** Oboe's types, as far as the engine uses them *)

Inductive oboe_result_t : Type :=
| OBOE_OK
| OBOE_ERROR_DISCONNECTED
| OBOE_ERROR_ILLEGAL_ARGUMENT
| OBOE_ERROR_INTERNAL
| OBOE_ERROR_INVALID_STATE
| OBOE_ERROR_INVALID_HANDLE
| OBOE_ERROR_UNIMPLEMENTED
| OBOE_ERROR_UNAVAILABLE
| OBOE_ERROR_NO_MEMORY
| OBOE_ERROR_NULL
| OBOE_ERROR_TIMEOUT.

Definition oboe_result_eq_dec (a b : oboe_result_t) : {a = b} + {a <> b}.
Proof. decide equality. Defined.

Definition result_eqb (a b : oboe_result_t) : bool :=
  if oboe_result_eq_dec a b then true else false.

Inductive oboe_audio_format_t : Type :=
| OBOE_AUDIO_FORMAT_INVALID
| OBOE_AUDIO_FORMAT_UNSPECIFIED
| OBOE_AUDIO_FORMAT_PCM_I16
| OBOE_AUDIO_FORMAT_PCM_FLOAT.

Definition is_pcm_float (f : oboe_audio_format_t) : bool :=
  match f with OBOE_AUDIO_FORMAT_PCM_FLOAT => true | _ => false end.

Inductive oboe_data_callback_result_t : Type :=
| OBOE_CALLBACK_RESULT_CONTINUE
| OBOE_CALLBACK_RESULT_STOP.

Inductive oboe_sharing_mode_t : Type :=
| OBOE_SHARING_MODE_EXCLUSIVE
| OBOE_SHARING_MODE_SHARED.

Inductive oboe_performance_mode_t : Type :=
| OBOE_PERFORMANCE_MODE_NONE
| OBOE_PERFORMANCE_MODE_POWER_SAVING
| OBOE_PERFORMANCE_MODE_LOW_LATENCY.

(** An [OboeStream *] that is not null: the identity of a stream object. *)
Definition OboeStream : Type := nat.

(** The sample type a renderer or [memset] is instantiated at. *)
Inductive sample_t : Type := sample_float | sample_int16.

Definition sizeof (t : sample_t) : Z :=
  match t with sample_float => 4 | sample_int16 => 2 end.

(** [OboeStreamBuilder]: a field is [None] until its setter is called. *)
Record OboeStreamBuilder : Type := mkBuilder {
  b_deviceId : option Z;
  b_channelCount : option Z;
  b_sharingMode : option oboe_sharing_mode_t;
  b_performanceMode : option oboe_performance_mode_t;
  b_callback : bool
}.

Definition new_builder : OboeStreamBuilder := mkBuilder None None None None false.

Inductive Oscillator : Type := mSineOscLeft | mSineOscRight.

Inductive log_level : Type := LOGI | LOGW | LOGE.

(** What runs on a thread started by the engine. *)
Inductive task : Type := RestartStreamTask.

(** ** Events: the calls the engine makes, with what they answered *)

Inductive event : Type :=
| OpenStream (b : OboeStreamBuilder) (before after : option OboeStream) (r : oboe_result_t)
| GetSampleRate (s : OboeStream) (v : Z)
| GetFramesPerBurst (s : OboeStream) (v : Z)
| GetDeviceId (s : OboeStream) (v : Z)
| GetBufferSizeInFrames (s : OboeStream) (v : Z)
| SetBufferSizeInFrames (s : OboeStream) (requested : Z) (r : oboe_result_t)
| GetXRunCount (s : OboeStream) (v : Z)
| GetFormat (s : OboeStream) (f : oboe_audio_format_t)
| GetFramesWritten (s : OboeStream) (v : Z)
| GetTimestamp (s : OboeStream) (outputs : bool) (r : oboe_result_t) (frame time : Z)
| RequestStart (s : OboeStream) (r : oboe_result_t)
| RequestStop (s : OboeStream) (r : oboe_result_t)
| Close (s : OboeStream) (r : oboe_result_t)
| GetNanoseconds (v : Z)
| OscSetup (o : Oscillator) (frequency : Z) (sampleRate : Z) (amplitude_num amplitude_den : Z)
| OscRender (o : Oscillator) (t : sample_t) (offset stride numFrames : Z)
| NewLatencyTuner (s : OboeStream)
| Tune (s : OboeStream)
| Log (l : log_level) (fmt : string) (arg : option oboe_result_t)
| TraceInitialize
| TraceBeginSection (numFrames underruns bufferSize : Z)
| TraceEndSection
| TryLock (acquired : bool)
| Unlock
| ThreadStart (t : task).

Definition history : Type := list event.

(** ** The platform: what each external call answers, given the history *)

Record Platform : Type := mkPlatform {
  p_openStream : history -> OboeStreamBuilder -> option OboeStream ->
                 oboe_result_t * option OboeStream;
  p_getSampleRate : history -> OboeStream -> Z;
  p_getFramesPerBurst : history -> OboeStream -> Z;
  p_getDeviceId : history -> OboeStream -> Z;
  p_getBufferSizeInFrames : history -> OboeStream -> Z;
  p_setBufferSizeInFrames : history -> OboeStream -> Z -> oboe_result_t;
  p_getXRunCount : history -> OboeStream -> Z;
  p_getFormat : history -> OboeStream -> oboe_audio_format_t;
  p_getFramesWritten : history -> OboeStream -> Z;
  p_getTimestamp : history -> OboeStream -> bool -> oboe_result_t * Z * Z;
  p_requestStart : history -> OboeStream -> oboe_result_t;
  p_requestStop : history -> OboeStream -> oboe_result_t;
  p_close : history -> OboeStream -> oboe_result_t;
  p_getNanoseconds : history -> Z;
  p_render : history -> Oscillator -> sample_t -> list Byte.byte -> Z -> Z -> Z ->
             list Byte.byte
}.

(** ** The engine's fields *)

Record PlayAudioEngine : Type := mkEngine {
  mPlayStream : option OboeStream;
  mLatencyTuner : option OboeStream;
  mPlaybackDeviceId : Z;
  mSampleRate : Z;
  mSampleChannels : Z;
  mFramesPerBurst : Z;
  mBufferSizeSelection : Z;
  mIsToneOn : bool;
  mIsLatencyDetectionSupported : bool;
  mCurrentOutputLatencyMillis : double;
  mRestartingLock : bool;
  mStreamRestartThread : option nat
}.

Definition set_mPlayStream (v : option OboeStream) (e : PlayAudioEngine) :=
  mkEngine v (mLatencyTuner e) (mPlaybackDeviceId e) (mSampleRate e)
    (mSampleChannels e) (mFramesPerBurst e) (mBufferSizeSelection e) (mIsToneOn e)
    (mIsLatencyDetectionSupported e) (mCurrentOutputLatencyMillis e)
    (mRestartingLock e) (mStreamRestartThread e).

Definition set_mLatencyTuner (v : option OboeStream) (e : PlayAudioEngine) :=
  mkEngine (mPlayStream e) v (mPlaybackDeviceId e) (mSampleRate e)
    (mSampleChannels e) (mFramesPerBurst e) (mBufferSizeSelection e) (mIsToneOn e)
    (mIsLatencyDetectionSupported e) (mCurrentOutputLatencyMillis e)
    (mRestartingLock e) (mStreamRestartThread e).

Definition set_mPlaybackDeviceId (v : Z) (e : PlayAudioEngine) :=
  mkEngine (mPlayStream e) (mLatencyTuner e) v (mSampleRate e)
    (mSampleChannels e) (mFramesPerBurst e) (mBufferSizeSelection e) (mIsToneOn e)
    (mIsLatencyDetectionSupported e) (mCurrentOutputLatencyMillis e)
    (mRestartingLock e) (mStreamRestartThread e).

Definition set_mSampleRate (v : Z) (e : PlayAudioEngine) :=
  mkEngine (mPlayStream e) (mLatencyTuner e) (mPlaybackDeviceId e) v
    (mSampleChannels e) (mFramesPerBurst e) (mBufferSizeSelection e) (mIsToneOn e)
    (mIsLatencyDetectionSupported e) (mCurrentOutputLatencyMillis e)
    (mRestartingLock e) (mStreamRestartThread e).

Definition set_mSampleChannels (v : Z) (e : PlayAudioEngine) :=
  mkEngine (mPlayStream e) (mLatencyTuner e) (mPlaybackDeviceId e) (mSampleRate e)
    v (mFramesPerBurst e) (mBufferSizeSelection e) (mIsToneOn e)
    (mIsLatencyDetectionSupported e) (mCurrentOutputLatencyMillis e)
    (mRestartingLock e) (mStreamRestartThread e).

Definition set_mFramesPerBurst (v : Z) (e : PlayAudioEngine) :=
  mkEngine (mPlayStream e) (mLatencyTuner e) (mPlaybackDeviceId e) (mSampleRate e)
    (mSampleChannels e) v (mBufferSizeSelection e) (mIsToneOn e)
    (mIsLatencyDetectionSupported e) (mCurrentOutputLatencyMillis e)
    (mRestartingLock e) (mStreamRestartThread e).

Definition set_mBufferSizeSelection (v : Z) (e : PlayAudioEngine) :=
  mkEngine (mPlayStream e) (mLatencyTuner e) (mPlaybackDeviceId e) (mSampleRate e)
    (mSampleChannels e) (mFramesPerBurst e) v (mIsToneOn e)
    (mIsLatencyDetectionSupported e) (mCurrentOutputLatencyMillis e)
    (mRestartingLock e) (mStreamRestartThread e).


Definition set_mIsLatencyDetectionSupported (v : bool) (e : PlayAudioEngine) :=
  mkEngine (mPlayStream e) (mLatencyTuner e) (mPlaybackDeviceId e) (mSampleRate e)
    (mSampleChannels e) (mFramesPerBurst e) (mBufferSizeSelection e) (mIsToneOn e)
    v (mCurrentOutputLatencyMillis e)
    (mRestartingLock e) (mStreamRestartThread e).

Definition set_mCurrentOutputLatencyMillis (v : double) (e : PlayAudioEngine) :=
  mkEngine (mPlayStream e) (mLatencyTuner e) (mPlaybackDeviceId e) (mSampleRate e)
    (mSampleChannels e) (mFramesPerBurst e) (mBufferSizeSelection e) (mIsToneOn e)
    (mIsLatencyDetectionSupported e) v
    (mRestartingLock e) (mStreamRestartThread e).

Definition set_mRestartingLock (v : bool) (e : PlayAudioEngine) :=
  mkEngine (mPlayStream e) (mLatencyTuner e) (mPlaybackDeviceId e) (mSampleRate e)
    (mSampleChannels e) (mFramesPerBurst e) (mBufferSizeSelection e) (mIsToneOn e)
    (mIsLatencyDetectionSupported e) (mCurrentOutputLatencyMillis e)
    v (mStreamRestartThread e).

Definition set_mStreamRestartThread (v : option nat) (e : PlayAudioEngine) :=
  mkEngine (mPlayStream e) (mLatencyTuner e) (mPlaybackDeviceId e) (mSampleRate e)
    (mSampleChannels e) (mFramesPerBurst e) (mBufferSizeSelection e) (mIsToneOn e)
    (mIsLatencyDetectionSupported e) (mCurrentOutputLatencyMillis e)
    (mRestartingLock e) v.

(** ** The monad: engine fields and history, with faults *)

Record World : Type := mkWorld {
  engine : PlayAudioEngine;
  trace : history
}.

Definition M (A : Type) : Type := World -> option (A * World).

Definition ret {A : Type} (a : A) : M A := fun w => Some (a, w).

Definition bind {A B : Type} (m : M A) (k : A -> M B) : M B :=
  fun w => match m w with
           | Some (a, w') => k a w'
           | None => None
           end.

Definition fault {A : Type} : M A := fun _ => None.

Declare Scope engine_scope.
Delimit Scope engine_scope with engine.
Notation "x <- m ; k" := (bind m (fun x => k))
  (at level 61, m at next level, right associativity) : engine_scope.
Notation "m ;; k" := (bind m (fun _ => k))
  (at level 61, right associativity) : engine_scope.
Local Open Scope engine_scope.

(** Read the engine's fields. *)
Definition this : M PlayAudioEngine := fun w => Some (engine w, w).

(** Assign a field. *)
Definition assign (f : PlayAudioEngine -> PlayAudioEngine) : M unit :=
  fun w => Some (tt, mkWorld (f (engine w)) (trace w)).

(** A call that answers nothing the engine uses. *)
Definition emit (e : event) : M unit :=
  fun w => Some (tt, mkWorld (engine w) (trace w ++ [e])).

(** A call whose answer [q] depends on the history; [e] records it. *)
Definition call {A : Type} (q : history -> A) (e : A -> event) : M A :=
  fun w => let a := q (trace w) in
           Some (a, mkWorld (engine w) (trace w ++ [e a])).

(** [p->...] for a pointer [p]: a fault when [p] is null. *)
Definition deref {A : Type} (p : option A) : M A :=
  match p with Some a => ret a | None => fault end.

Definition lift_option {A : Type} (o : option A) : M A := deref o.

(** [memset(buf, 0, n)]; a fault when [n] bytes do not fit in the buffer. *)
Definition memset (buf : list Byte.byte) (n : Z) : option (list Byte.byte) :=
  if n <=? Z.of_nat (List.length buf)
  then Some (repeat Byte.x00 (Z.to_nat n) ++ skipn (Z.to_nat n) buf)
  else None.

(** Counting the events of a kind in a history. *)
Definition count_events (p : event -> bool) (h : history) : nat :=
  List.length (filter p h).

Definition is_ThreadStart (ev : event) : bool :=
  match ev with ThreadStart _ => true | _ => false end.

Definition threads_started (h : history) : nat := count_events is_ThreadStart h.

(** ** Threads running [restartStream] *)

Inductive restart_pc : Type :=
| AtEntry | AtTryLock | AtClose | AtCreate | AtUnlock | AtIgnore | Returned.

Record Threads : Type := mkThreads {
  shared : World;
  pcs : list restart_pc
}.

Fixpoint set_nth {A : Type} (i : nat) (a : A) (l : list A) : list A :=
  match l, i with
  | [], _ => []
  | _ :: l', O => a :: l'
  | x :: l', S i' => x :: set_nth i' a l'
  end.

Definition kAudioSampleChannels : Z := 2.
Definition kNanosPerMillisecond : Z := 1000000.

(** Modelled from the spec: [OBOE_NANOS_PER_SECOND] is declared in Oboe's
    headers, which are not part of the sources; the spec has it as
    "1 second in nanoseconds". *)
Definition OBOE_NANOS_PER_SECOND : Z := 1000000000.

(** ** The engine's methods *)

Section Engine.

(** The platform the engine runs on. *)
Variable plat : Platform.

(** [kBufferSizeAutomatic], declared in [PlayAudioEngine.h]. *)
Variable kBufferSizeAutomatic : Z.

(** The width of [size_t] on the target. *)
Variable size_t_bits : Z.

(** *** Calls on the platform *)

Definition openStream (b : OboeStreamBuilder) : M oboe_result_t :=
  e <- this ;
  let before := mPlayStream e in
  ra <- call (fun h => p_openStream plat h b before)
             (fun ra => OpenStream b before (snd ra) (fst ra)) ;
  assign (set_mPlayStream (snd ra)) ;;
  ret (fst ra).

Definition getSampleRate (s : OboeStream) : M Z :=
  call (fun h => Int.i32 (p_getSampleRate plat h s)) (GetSampleRate s).

Definition getFramesPerBurst (s : OboeStream) : M Z :=
  call (fun h => Int.i32 (p_getFramesPerBurst plat h s)) (GetFramesPerBurst s).

Definition getDeviceId (s : OboeStream) : M Z :=
  call (fun h => Int.i32 (p_getDeviceId plat h s)) (GetDeviceId s).

Definition getBufferSizeInFrames (s : OboeStream) : M Z :=
  call (fun h => Int.i32 (p_getBufferSizeInFrames plat h s)) (GetBufferSizeInFrames s).

Definition setBufferSizeInFrames (s : OboeStream) (requested : Z) : M oboe_result_t :=
  call (fun h => p_setBufferSizeInFrames plat h s requested)
       (SetBufferSizeInFrames s requested).

Definition getXRunCount (s : OboeStream) : M Z :=
  call (fun h => Int.i32 (p_getXRunCount plat h s)) (GetXRunCount s).

Definition getFormat (s : OboeStream) : M oboe_audio_format_t :=
  call (fun h => p_getFormat plat h s) (GetFormat s).

Definition getFramesWritten (s : OboeStream) : M Z :=
  call (fun h => Int.i64 (p_getFramesWritten plat h s)) (GetFramesWritten s).

(** [getTimestamp(CLOCK_MONOTONIC, &frame, &time)]; [outputs] is false
    when both pointers are null. *)
Definition getTimestamp (s : OboeStream) (outputs : bool) : M (oboe_result_t * Z * Z) :=
  call (fun h => let ts := p_getTimestamp plat h s outputs in
                 (fst (fst ts), Int.i64 (snd (fst ts)), Int.i64 (snd ts)))
       (fun a => GetTimestamp s outputs (fst (fst a)) (snd (fst a)) (snd a)).

Definition requestStart (s : OboeStream) : M oboe_result_t :=
  call (fun h => p_requestStart plat h s) (RequestStart s).

Definition requestStop (s : OboeStream) : M oboe_result_t :=
  call (fun h => p_requestStop plat h s) (RequestStop s).

Definition close (s : OboeStream) : M oboe_result_t :=
  call (fun h => p_close plat h s) (Close s).

(** [AudioClock::getNanoseconds(CLOCK_MONOTONIC)] *)
Definition getNanoseconds : M Z :=
  call (fun h => Int.i64 (p_getNanoseconds plat h)) GetNanoseconds.

(** [osc.render(buffer + offset, stride, numFrames)] *)
Definition render (o : Oscillator) (t : sample_t) (buf : list Byte.byte)
    (offset stride numFrames : Z) : M (list Byte.byte) :=
  call (fun h => p_render plat h o t buf offset stride numFrames)
       (fun _ => OscRender o t offset stride numFrames).

(** [new std::thread(t)]: the handle is the number of threads started before. *)
Definition new_thread (t : task) : M nat :=
  fun w => Some (threads_started (trace w),
                 mkWorld (engine w) (trace w ++ [ThreadStart t])).

Definition try_lock : M bool :=
  e <- this ;
  if mRestartingLock e
  then emit (TryLock false) ;; ret false
  else assign (set_mRestartingLock true) ;; emit (TryLock true) ;; ret true.

Definition unlock : M unit :=
  assign (set_mRestartingLock false) ;; emit Unlock.

(** *** PlayAudioEngine.cpp *)

Definition prepareOscillators : M unit :=
  e <- this ;
  emit (OscSetup mSineOscLeft 440 (mSampleRate e) 1 4) ;;
  emit (OscSetup mSineOscRight 660 (mSampleRate e) 1 4).

Definition setupPlaybackStreamParameters (builder : OboeStreamBuilder) :
    M OboeStreamBuilder :=
  e <- this ;
  let builder := mkBuilder (Some (mPlaybackDeviceId e)) (b_channelCount builder)
                   (b_sharingMode builder) (b_performanceMode builder)
                   (b_callback builder) in
  let builder := mkBuilder (b_deviceId builder) (Some (mSampleChannels e))
                   (b_sharingMode builder) (b_performanceMode builder)
                   (b_callback builder) in
  let builder := mkBuilder (b_deviceId builder) (b_channelCount builder)
                   (Some OBOE_SHARING_MODE_EXCLUSIVE) (b_performanceMode builder)
                   (b_callback builder) in
  let builder := mkBuilder (b_deviceId builder) (b_channelCount builder)
                   (b_sharingMode builder) (Some OBOE_PERFORMANCE_MODE_LOW_LATENCY)
                   (b_callback builder) in
  ret (mkBuilder (b_deviceId builder) (b_channelCount builder)
                 (b_sharingMode builder) (b_performanceMode builder) true).

Definition createPlaybackStream : M unit :=
  builder <- setupPlaybackStreamParameters new_builder ;
  result <- openStream builder ;
  e <- this ;
  match result_eqb result OBOE_OK, mPlayStream e with
  | true, Some s =>
      sampleRate <- getSampleRate s ;
      assign (set_mSampleRate sampleRate) ;;
      framesPerBurst <- getFramesPerBurst s ;
      assign (set_mFramesPerBurst framesPerBurst) ;;
      setBufferSizeInFrames s framesPerBurst ;;
      prepareOscillators ;;
      emit (NewLatencyTuner s) ;;
      assign (set_mLatencyTuner (Some s)) ;;
      result <- requestStart s ;
      (if negb (result_eqb result OBOE_OK)
       then emit (Log LOGE "Error starting stream. %s" (Some result))
       else ret tt) ;;
      ts <- getTimestamp s false ;
      assign (set_mIsLatencyDetectionSupported
                (negb (result_eqb (fst (fst ts)) OBOE_ERROR_UNIMPLEMENTED)))
  | _, _ => emit (Log LOGE "Failed to create stream. Error: %s" (Some result))
  end.

(** The constructor; [fields] are the fields' initial values, given by
    the class declaration. *)
Definition PlayAudioEngine_new (fields : PlayAudioEngine) (h : history) :
    option (unit * World) :=
  (emit TraceInitialize ;;
   assign (set_mSampleChannels kAudioSampleChannels) ;;
   createPlaybackStream) (mkWorld fields h).

Definition closeOutputStream : M unit :=
  e <- this ;
  match mPlayStream e with
  | Some s =>
      result <- requestStop s ;
      (if negb (result_eqb result OBOE_OK)
       then emit (Log LOGE "Error stopping output stream. %s" (Some result))
       else ret tt) ;;
      result <- close s ;
      if negb (result_eqb result OBOE_OK)
      then emit (Log LOGE "Error closing output stream. %s" (Some result))
      else ret tt
  | None => ret tt
  end.

(** The destructor. *)
Definition PlayAudioEngine_delete : M unit := closeOutputStream.

Definition restartStream : M unit :=
  emit (Log LOGI "Restarting stream" None) ;;
  locked <- try_lock ;
  if locked then
    closeOutputStream ;;
    createPlaybackStream ;;
    unlock
  else
    emit (Log LOGW "Restart stream operation already in progress - ignoring this request"
              None).

Definition setDeviceId (deviceId : Z) : M unit :=
  assign (set_mPlaybackDeviceId deviceId) ;;
  e <- this ;
  s <- deref (mPlayStream e) ;
  currentDeviceId <- getDeviceId s ;
  if negb (deviceId =? currentDeviceId) then restartStream else ret tt.




(** Returns the result and, when it is [OBOE_OK], what is stored in
    [*latencyMillis]. *)
Definition calculateCurrentOutputLatencyMillis (stream : OboeStream) :
    M (oboe_result_t * option double) :=
  ts <- getTimestamp stream true ;
  let result := fst (fst ts) in
  let existingFrameIndex := snd (fst ts) in
  let existingFramePresentationTime := snd ts in
  if result_eqb result OBOE_OK then
    writeIndex <- getFramesWritten stream ;
    e <- this ;
    let frameIndexDelta := Int.sub64 writeIndex existingFrameIndex in
    frameTimeDelta <- lift_option
      (Int.div64 (Int.mul64 frameIndexDelta OBOE_NANOS_PER_SECOND) (mSampleRate e)) ;
    let nextFramePresentationTime :=
      Int.add64 existingFramePresentationTime frameTimeDelta in
    nextFrameWriteTime <- getNanoseconds ;
    ret (result,
         Some (double_div
                 (double_of_int64
                    (Int.sub64 nextFramePresentationTime nextFrameWriteTime))
                 (double_of_int64 kNanosPerMillisecond)))
  else
    emit (Log LOGE "Error calculating latency: %s" (Some result)) ;;
    ret (result, None).

(** [memset(audioData, 0, sizeof(T) * samplesPerFrame * numFrames)] *)
Definition zeroFill (t : sample_t) (audioData : list Byte.byte)
    (samplesPerFrame numFrames : Z) : M (list Byte.byte) :=
  lift_option
    (memset audioData
       (Int.umul size_t_bits
          (Int.umul size_t_bits (sizeof t) (Int.to_unsigned size_t_bits samplesPerFrame))
          (Int.to_unsigned size_t_bits numFrames))).

Definition fillBuffer (t : sample_t) (e : PlayAudioEngine)
    (audioData : list Byte.byte) (samplesPerFrame numFrames : Z) :
    M (list Byte.byte) :=
  if mIsToneOn e then
    buf <- render mSineOscRight t audioData 0 samplesPerFrame numFrames ;
    if mSampleChannels e =? 2
    then render mSineOscLeft t buf 1 samplesPerFrame numFrames
    else ret buf
  else zeroFill t audioData samplesPerFrame numFrames.

(** Lines 151-158: the buffer size the rest of the callback uses. *)
Definition adjustBufferSize (audioStream : OboeStream) : M Z :=
  bufferSize <- getBufferSizeInFrames audioStream ;
  e <- this ;
  if mBufferSizeSelection e =? kBufferSizeAutomatic then
    tuner <- deref (mLatencyTuner e) ;
    emit (Tune tuner) ;;
    ret bufferSize
  else if negb (bufferSize =? Int.mul32 (mBufferSizeSelection e) (mFramesPerBurst e))
  then
    setBufferSizeInFrames audioStream
      (Int.mul32 (mBufferSizeSelection e) (mFramesPerBurst e)) ;;
    getBufferSizeInFrames audioStream
  else ret bufferSize.

(** Lines 199-201. *)
Definition updateLatency (audioStream : OboeStream) : M unit :=
  e <- this ;
  if mIsLatencyDetectionSupported e then
    rl <- calculateCurrentOutputLatencyMillis audioStream ;
    match snd rl with
    | Some latencyMillis => assign (set_mCurrentOutputLatencyMillis latencyMillis)
    | None => ret tt
    end
  else ret tt.

Definition onAudioReady (audioStream : OboeStream) (audioData : list Byte.byte)
    (numFrames : Z) : M (oboe_data_callback_result_t * list Byte.byte) :=
  bufferSize <- adjustBufferSize audioStream ;
  underrunCount <- getXRunCount audioStream ;
  emit (TraceBeginSection numFrames underrunCount bufferSize) ;;
  e <- this ;
  let samplesPerFrame := mSampleChannels e in
  format <- getFormat audioStream ;
  audioData' <-
    (if is_pcm_float format
     then fillBuffer sample_float e audioData samplesPerFrame numFrames
     else fillBuffer sample_int16 e audioData samplesPerFrame numFrames) ;
  updateLatency audioStream ;;
  emit TraceEndSection ;;
  ret (OBOE_CALLBACK_RESULT_CONTINUE, audioData').

Definition onError (audioStream : OboeStream) (error : oboe_result_t) : M unit :=
  if result_eqb error OBOE_ERROR_DISCONNECTED then
    thread <- new_thread RestartStreamTask ;
    assign (set_mStreamRestartThread (Some thread))
  else ret tt.

(** *** [restartStream] on a thread of its own

    The steps of one run of [restartStream], for runs interleaved by a
    scheduler.  [closeOutputStream] and [createPlaybackStream] are one
    step each: only the thread that holds [mRestartingLock] takes them. *)

Definition restart_step (pc : restart_pc) : M restart_pc :=
  match pc with
  | AtEntry => emit (Log LOGI "Restarting stream" None) ;; ret AtTryLock
  | AtTryLock => locked <- try_lock ; ret (if locked then AtClose else AtIgnore)
  | AtClose => closeOutputStream ;; ret AtCreate
  | AtCreate => createPlaybackStream ;; ret AtUnlock
  | AtUnlock => unlock ;; ret Returned
  | AtIgnore =>
      emit (Log LOGW "Restart stream operation already in progress - ignoring this request"
                None) ;;
      ret Returned
  | Returned => fault
  end.

(** Thread [i] of [c] takes its next step. *)
Definition sched_step (c : Threads) (i : nat) : option Threads :=
  match nth_error (pcs c) i with
  | Some pc =>
      match restart_step pc (shared c) with
      | Some (pc', w') => Some (mkThreads w' (set_nth i pc' (pcs c)))
      | None => None
      end
  | None => None
  end.


Fixpoint run_schedule (c : Threads) (schedule : list nat) : option Threads :=
  match schedule with
  | [] => Some c
  | i :: rest =>
      match sched_step c i with
      | Some c' => run_schedule c' rest
      | None => None
      end
  end.

End Engine.

(** ** Reading histories *)

Definition is_OpenStream (ev : event) : bool :=
  match ev with OpenStream _ _ _ _ => true | _ => false end.

Definition is_RequestStart (ev : event) : bool :=
  match ev with RequestStart _ _ => true | _ => false end.

Definition is_RequestStop (ev : event) : bool :=
  match ev with RequestStop _ _ => true | _ => false end.

Definition is_Close (ev : event) : bool :=
  match ev with Close _ _ => true | _ => false end.

Definition is_GetTimestamp (ev : event) : bool :=
  match ev with GetTimestamp _ _ _ _ _ => true | _ => false end.

Definition is_SetBufferSizeInFrames (ev : event) : bool :=
  match ev with SetBufferSizeInFrames _ _ _ => true | _ => false end.

Definition is_OscRender (ev : event) : bool :=
  match ev with OscRender _ _ _ _ _ => true | _ => false end.

Definition is_Log (ev : event) : bool :=
  match ev with Log _ _ _ => true | _ => false end.

Definition is_TryLock (acquired : bool) (ev : event) : bool :=
  match ev with TryLock a => Bool.eqb a acquired | _ => false end.

Definition is_Unlock (ev : event) : bool :=
  match ev with Unlock => true | _ => false end.

(** Events of [restartStream] itself: the calls on the lock and the open. *)
Definition is_restart_event (ev : event) : bool :=
  match ev with
  | TryLock _ | Unlock | OpenStream _ _ _ _ => true
  | _ => false
  end.

(** Some [p] event comes before some [q] event. *)
Fixpoint occurs_before (p q : event -> bool) (h : history) : bool :=
  match h with
  | [] => false
  | ev :: h' => if p ev then existsb q h' else occurs_before p q h'
  end.

(** The events a run from [w] to [w'] added. *)
Definition new_events (w w' : World) : history :=
  skipn (List.length (trace w)) (trace w').

(** The error report of [closeOutputStream] and [createPlaybackStream]
    for a result: nothing when it is [OBOE_OK]. *)
Definition reported (fmt : string) (r : oboe_result_t) : history :=
  if result_eqb r OBOE_OK then [] else [Log LOGE fmt (Some r)].

(** The request [createPlaybackStream] builds from the engine's fields. *)
Definition playback_builder (e : PlayAudioEngine) : OboeStreamBuilder :=
  mkBuilder (Some (mPlaybackDeviceId e)) (Some (mSampleChannels e))
            (Some OBOE_SHARING_MODE_EXCLUSIVE)
            (Some OBOE_PERFORMANCE_MODE_LOW_LATENCY) true.

(** The calls lines 151-158 of [onAudioReady] can make. *)
Definition is_buffer_size_event (ev : event) : bool :=
  match ev with
  | GetBufferSizeInFrames _ _ | SetBufferSizeInFrames _ _ _ | Tune _ => true
  | _ => false
  end.

(** The bytes [N] frames of [channels] samples of type [t] take. *)
Definition frame_bytes (t : sample_t) (channels N : Z) : Z := N * channels * sizeof t.

(** [n] zero bytes at the start of [buf], the rest of [buf] untouched. *)
Definition zeroed (n : Z) (buf : list Byte.byte) : list Byte.byte :=
  repeat Byte.x00 (Z.to_nat n) ++ skipn (Z.to_nat n) buf.

(** No event of [restartStream] itself among [evs]. *)
Definition quiet (evs : history) : Prop :=
  forallb (fun ev => negb (is_restart_event ev)) evs = true.

(** What a [restartStream] that finds the lock taken adds to the history. *)
Definition restart_ignored : history :=
  [Log LOGI "Restarting stream" None;
   TryLock false;
   Log LOGW "Restart stream operation already in progress - ignoring this request" None].

Definition latency_unavailable : string := "Error calculating latency: %s".

(** The sample type [onAudioReady] fills the buffer with, by format. *)
Definition sample_of_format (f : oboe_audio_format_t) : sample_t :=
  if is_pcm_float f then sample_float else sample_int16.

(** [sizeof(T) * samplesPerFrame * numFrames] in [size_t]. *)
Definition memset_size (size_t_bits : Z) (t : sample_t) (samplesPerFrame numFrames : Z) : Z :=
  Int.umul size_t_bits
    (Int.umul size_t_bits (sizeof t) (Int.to_unsigned size_t_bits samplesPerFrame))
    (Int.to_unsigned size_t_bits numFrames).

(** The callback as far as line 173: the sample type of the format the
    stream answers there, in which lines 174-197 fill the buffer. *)
Definition callback_sample_type (plat : Platform) (kBufferSizeAutomatic : Z)
    (audioStream : OboeStream) (numFrames : Z) : M sample_t :=
  bufferSize <- adjustBufferSize plat kBufferSizeAutomatic audioStream ;
  underrunCount <- getXRunCount plat audioStream ;
  emit (TraceBeginSection numFrames underrunCount bufferSize) ;;
  format <- getFormat plat audioStream ;
  ret (sample_of_format format).

(** The callback as far as line 197, and the result the stream has for
    the timestamp query of line 232 there. *)
Definition callback_timestamp (plat : Platform) (kBufferSizeAutomatic size_t_bits : Z)
    (audioStream : OboeStream) (audioData : list Byte.byte) (numFrames : Z)
    (w : World) : option oboe_result_t :=
  match callback_sample_type plat kBufferSizeAutomatic audioStream numFrames w with
  | Some (t, w1) =>
      match fillBuffer plat size_t_bits t (engine w1) audioData
              (mSampleChannels (engine w1)) numFrames w1 with
      | Some (_, w2) => Some (fst (fst (p_getTimestamp plat (trace w2) audioStream true)))
      | None => None
      end
  | None => None
  end.

(** The callback can run without a fault: the tuner it calls exists; with
    the tone off, the zero fill, in the sample type of the stream's
    format, stays inside the buffer; the sample rate it divides by, once
    the timestamp query has answered [OBOE_OK], is not zero. *)
Definition callback_ready (plat : Platform) (kBufferSizeAutomatic size_t_bits : Z)
    (audioStream : OboeStream) (audioData : list Byte.byte) (numFrames : Z)
    (w : World) : Prop :=
  (mBufferSizeSelection (engine w) = kBufferSizeAutomatic ->
   mLatencyTuner (engine w) <> None) /\
  (mIsToneOn (engine w) = false ->
   forall t w1,
     callback_sample_type plat kBufferSizeAutomatic audioStream numFrames w = Some (t, w1) ->
     memset_size size_t_bits t (mSampleChannels (engine w)) numFrames
     <= Z.of_nat (List.length audioData)) /\
  (mIsLatencyDetectionSupported (engine w) = true ->
   callback_timestamp plat kBufferSizeAutomatic size_t_bits audioStream audioData
     numFrames w = Some OBOE_OK ->
   mSampleRate (engine w) <> 0).

(** What [updateLatency] did, from the fields before and after and the
    events it added. *)
Inductive latency_outcome (s : OboeStream) (e e' : PlayAudioEngine) : history -> Prop :=
| latency_unsupported :
    mIsLatencyDetectionSupported e = false -> e' = e ->
    latency_outcome s e e' []
| latency_skipped (r : oboe_result_t) (frame time : Z) :
    r <> OBOE_OK -> e' = e ->
    latency_outcome s e e'
      [GetTimestamp s true r frame time; Log LOGE latency_unavailable (Some r)]
| latency_updated (frame time written now : Z) (latencyMillis : double) :
    e' = set_mCurrentOutputLatencyMillis latencyMillis e ->
    latency_outcome s e e'
      [GetTimestamp s true OBOE_OK frame time; GetFramesWritten s written;
       GetNanoseconds now].

(** Where a thread running [restartStream] stands. *)
Definition in_restart (pc : restart_pc) : bool :=
  match pc with AtClose | AtCreate | AtUnlock => true | _ => false end.

Definition past_try_lock (pc : restart_pc) : bool :=
  match pc with AtEntry | AtTryLock => false | _ => true end.

Definition at_unlock (pc : restart_pc) : bool :=
  match pc with AtUnlock => true | _ => false end.

Definition has_returned (pc : restart_pc) : bool :=
  match pc with Returned => true | _ => false end.

Definition count_pcs (p : restart_pc -> bool) (l : list restart_pc) : nat :=
  List.length (filter p l).

(** The invariant of the threads running [restartStream], over the lock,
    the threads and the events since they were started. *)
Record restart_inv (lock : bool) (l : list restart_pc) (evs : history) : Prop := {
  inv_lock : count_pcs in_restart l = if lock then 1%nat else 0%nat;
  inv_acquired :
    count_events (is_TryLock true) evs
    = (count_pcs in_restart l + count_events is_Unlock evs)%nat;
  inv_opened :
    count_events is_OpenStream evs
    = (count_events is_Unlock evs + count_pcs at_unlock l)%nat;
  inv_tried :
    (count_events (is_TryLock true) evs + count_events (is_TryLock false) evs)%nat
    = count_pcs past_try_lock l;
  inv_ignored :
    (0 < count_events (is_TryLock false) evs)%nat ->
    (0 < count_events (is_TryLock true) evs)%nat
}.

(** What one step of a thread does to the lock, its place and the history. *)
Inductive step_effect (w : World) : restart_pc -> restart_pc -> World -> Prop :=
| effect_entry :
    step_effect w AtEntry AtTryLock
      (mkWorld (engine w) (trace w ++ [Log LOGI "Restarting stream" None]))
| effect_acquired :
    mRestartingLock (engine w) = false ->
    step_effect w AtTryLock AtClose
      (mkWorld (set_mRestartingLock true (engine w)) (trace w ++ [TryLock true]))
| effect_refused :
    mRestartingLock (engine w) = true ->
    step_effect w AtTryLock AtIgnore (mkWorld (engine w) (trace w ++ [TryLock false]))
| effect_close (evs : history) :
    quiet evs ->
    step_effect w AtClose AtCreate (mkWorld (engine w) (trace w ++ evs))
| effect_create (e' : PlayAudioEngine) (ev : event) (evs : history) :
    is_OpenStream ev = true -> quiet evs ->
    mRestartingLock e' = mRestartingLock (engine w) ->
    step_effect w AtCreate AtUnlock (mkWorld e' (trace w ++ ev :: evs))
| effect_unlock :
    step_effect w AtUnlock Returned
      (mkWorld (set_mRestartingLock false (engine w)) (trace w ++ [Unlock]))
| effect_ignore :
    step_effect w AtIgnore Returned
      (mkWorld (engine w)
         (trace w ++ [Log LOGW "Restart stream operation already in progress - ignoring this request" None])).

(** The latency estimate as the spec words it (4.3, steps 3 to 7), over
    the integers; [/] on operands that are not negative. *)
Definition latency_estimate_nanos
    (presented_frame_index presented_time frames_written sample_rate now : Z) : Z :=
  let delta_frames := frames_written - presented_frame_index in
  let delta_time := delta_frames * 1000000000 / sample_rate in
  let predicted_presentation_time := presented_time + delta_time in
  predicted_presentation_time - now.

(** Step 7: the nanoseconds, as a double, divided by 1,000,000. *)
Definition latency_estimate_millis
    (presented_frame_index presented_time frames_written sample_rate now : Z) : double :=
  double_div
    (double_of_int64
       (latency_estimate_nanos presented_frame_index presented_time frames_written
          sample_rate now))
    (double_of_int64 1000000).

(** What the spec asks of a history of [createPlaybackStream]: the
    timestamp probe comes before the request to start. *)
Definition probe_then_start (h : history) : bool :=
  occurs_before is_GetTimestamp is_RequestStart h.

(** What the code does: the request to start comes before the probe. *)
Definition start_then_probe (h : history) : bool :=
  occurs_before is_RequestStart is_GetTimestamp h.

(** ** Platforms to run the engine on *)

(** A device that works: 48 kHz, bursts of 192 frames, every request
    granted, timestamps available. *)
Definition working_platform : Platform :=
  mkPlatform
    (fun _ _ _ => (OBOE_OK, Some 1%nat))
    (fun _ _ => 48000)
    (fun _ _ => 192)
    (fun _ _ => 7)
    (fun _ _ => 192)
    (fun _ _ _ => OBOE_OK)
    (fun _ _ => 0)
    (fun _ _ => OBOE_AUDIO_FORMAT_PCM_FLOAT)
    (fun _ _ => 960)
    (fun _ _ _ => (OBOE_OK, 480, 5000000000))
    (fun _ _ => OBOE_OK)
    (fun _ _ => OBOE_OK)
    (fun _ _ => OBOE_OK)
    (fun _ => 5000000000)
    (fun _ _ _ buf _ _ _ => buf).

(** The same device, except that it refuses to start a stream. *)
Definition start_fails_platform : Platform :=
  mkPlatform
    (p_openStream working_platform)
    (p_getSampleRate working_platform)
    (p_getFramesPerBurst working_platform)
    (p_getDeviceId working_platform)
    (p_getBufferSizeInFrames working_platform)
    (p_setBufferSizeInFrames working_platform)
    (p_getXRunCount working_platform)
    (p_getFormat working_platform)
    (p_getFramesWritten working_platform)
    (p_getTimestamp working_platform)
    (fun _ _ => OBOE_ERROR_INTERNAL)
    (p_requestStop working_platform)
    (p_close working_platform)
    (p_getNanoseconds working_platform)
    (p_render working_platform).

(** A device on which no stream can be opened; the open call stores null. *)
Definition open_fails_platform : Platform :=
  mkPlatform
    (fun _ _ _ => (OBOE_ERROR_UNAVAILABLE, None))
    (p_getSampleRate working_platform)
    (p_getFramesPerBurst working_platform)
    (p_getDeviceId working_platform)
    (p_getBufferSizeInFrames working_platform)
    (p_setBufferSizeInFrames working_platform)
    (p_getXRunCount working_platform)
    (p_getFormat working_platform)
    (p_getFramesWritten working_platform)
    (p_getTimestamp working_platform)
    (p_requestStart working_platform)
    (p_requestStop working_platform)
    (p_close working_platform)
    (p_getNanoseconds working_platform)
    (p_render working_platform).


(** The working device after 10^10 frames, asked for the timestamp of
    its first frame. *)
Definition long_playing_platform : Platform :=
  mkPlatform
    (p_openStream working_platform)
    (p_getSampleRate working_platform)
    (p_getFramesPerBurst working_platform)
    (p_getDeviceId working_platform)
    (p_getBufferSizeInFrames working_platform)
    (p_setBufferSizeInFrames working_platform)
    (p_getXRunCount working_platform)
    (p_getFormat working_platform)
    (fun _ _ => 10000000000)
    (fun _ _ _ => (OBOE_OK, 0, 0))
    (p_requestStart working_platform)
    (p_requestStop working_platform)
    (p_close working_platform)
    (fun _ => 0)
    (p_render working_platform).

(** The fields of an engine before its constructor runs. *)
Definition fresh_engine : PlayAudioEngine :=
  mkEngine None None 0 0 0 0 0 false false (double_of_int64 0) false None.

(** The engine's fields once its constructor has run on the working
    platform, playing silence, the buffer size left to the tuner
    ([kBufferSizeAutomatic] taken as 0). *)
Definition running_engine : PlayAudioEngine :=
  mkEngine (Some 1%nat) (Some 1%nat) 0 48000 2 192 0 false true
           (double_of_int64 0) false None.

Definition running_world : World := mkWorld running_engine [].

(** A buffer of sixteen bytes, none of them zero. *)
Definition buffer16 : list Byte.byte := repeat Byte.xff 16.

(** The running engine after [setBufferSizeInBursts(2)]. *)
Definition fixed_size_world : World :=
  mkWorld (set_mBufferSizeSelection 2 running_engine) [].

(** Two requests to restart; the second arrives while the first holds the
    lock. *)
Definition overlapping_schedule : list nat := [0; 0; 1; 1; 1; 0; 0; 0]%nat.

(** ** The engine in use *)

(** The fields [createPlaybackStream] never assigns. *)
Definition kept (e e' : PlayAudioEngine) : Prop :=
  mPlaybackDeviceId e' = mPlaybackDeviceId e /\
  mSampleChannels e' = mSampleChannels e /\
  mBufferSizeSelection e' = mBufferSizeSelection e /\
  mIsToneOn e' = mIsToneOn e /\
  mCurrentOutputLatencyMillis e' = mCurrentOutputLatencyMillis e /\
  mRestartingLock e' = mRestartingLock e /\
  mStreamRestartThread e' = mStreamRestartThread e.

Definition is_stop_or_close (ev : event) : bool :=
  is_RequestStop ev || is_Close ev.

(** What [closeOutputStream] adds to the history, for the stream the
    engine holds and the answers [r1] of the stop and [r2] of the close. *)
Definition closing (stream : option OboeStream) (r1 r2 : oboe_result_t) : history :=
  match stream with
  | Some s =>
      RequestStop s r1 :: reported "Error stopping output stream. %s" r1
      ++ Close s r2 :: reported "Error closing output stream. %s" r2
  | None => []
  end.

(** The events a data callback on [s] may add: queries and requests on
    [s] itself, the tuner, the clock, the oscillators, the tracer, and an
    error line. *)
Definition callback_event (s : OboeStream) (ev : event) : bool :=
  match ev with
  | GetBufferSizeInFrames s' _ | SetBufferSizeInFrames s' _ _
  | GetXRunCount s' _ | GetFormat s' _ | GetFramesWritten s' _ => Nat.eqb s' s
  | GetTimestamp s' outputs _ _ _ => Nat.eqb s' s && outputs
  | Tune _ | GetNanoseconds _ | OscRender _ _ _ _ _
  | TraceBeginSection _ _ _ | TraceEndSection => true
  | Log l _ _ => match l with LOGE => true | _ => false end
  | _ => false
  end.

(** The calls on the oscillators of a callback with the tone on. *)
Definition renders (t : sample_t) (channels numFrames : Z) : history :=
  OscRender mSineOscRight t 0 channels numFrames
  :: (if channels =? 2 then [OscRender mSineOscLeft t 1 channels numFrames] else []).

Definition is_Tune (ev : event) : bool :=
  match ev with Tune _ => true | _ => false end.

(** Events of the latency estimate. *)
Definition is_latency_event (ev : event) : bool :=
  match ev with
  | GetTimestamp _ _ _ _ _ | GetFramesWritten _ _ | GetNanoseconds _ | Log _ _ _ => true
  | _ => false
  end.








(** The steps a thread running [restartStream] has before it at most. *)
Definition steps_left (pc : restart_pc) : nat :=
  match pc with
  | AtEntry => 5 | AtTryLock => 4 | AtClose => 3 | AtCreate => 2
  | AtUnlock => 1 | AtIgnore => 1 | Returned => 0
  end%nat.

Definition total_steps_left (l : list restart_pc) : nat :=
  list_sum (map steps_left l).


Section Operations.

Variable plat : Platform.
Variable kBufferSizeAutomatic : Z.
Variable size_t_bits : Z.



End Operations.


Definition unmeasured_world : World :=
  mkWorld (set_mIsLatencyDetectionSupported false running_engine) [].

Definition restarting_world : World :=
  mkWorld (set_mRestartingLock true running_engine) [].

(** The working device reporting a frame presented one frame after the
    last one written. *)
Definition ahead_platform : Platform :=
  mkPlatform
    (p_openStream working_platform)
    (p_getSampleRate working_platform)
    (p_getFramesPerBurst working_platform)
    (p_getDeviceId working_platform)
    (p_getBufferSizeInFrames working_platform)
    (p_setBufferSizeInFrames working_platform)
    (p_getXRunCount working_platform)
    (p_getFormat working_platform)
    (fun _ _ => 960)
    (fun _ _ _ => (OBOE_OK, 961, 5000000000))
    (p_requestStart working_platform)
    (p_requestStop working_platform)
    (p_close working_platform)
    (fun _ => 5000000000)
    (p_render working_platform).



(** The running engine with bursts of 65536 frames, after
    [setBufferSizeInBursts(65536)]. *)
Definition wide_buffer_world : World :=
  mkWorld (set_mBufferSizeSelection 65536 (set_mFramesPerBurst 65536 running_engine)) [].


(** ** Properties *)

Section Properties.

Variable plat : Platform.
Variable kBufferSizeAutomatic : Z.
Variable size_t_bits : Z.

Ltac run :=
  repeat (cbn -[result_eqb Z.eqb Int.i32 Int.i64 Int.mul32 double_div double_of_int64
                count_events threads_started new_events];
          unfold bind, this, assign, emit, call, ret, deref, lift_option, fault);
  rewrite <- ?app_assoc; cbn [app].

Ltac branch :=
  match goal with
  | |- context [if negb ?c then _ else _] => destruct c eqn:?
  | |- context [if ?c then _ else _] => destruct c eqn:?
  | |- context [match ?c with Some _ => _ | None => _ end] => destruct c eqn:?
  end.

Lemma new_events_app (w : World) (e : PlayAudioEngine) (evs : history) :
  new_events w (mkWorld e (trace w ++ evs)) = evs.
Proof.
  unfold new_events. cbn [trace].
  rewrite skipn_app, skipn_all, Nat.sub_diag. reflexivity.
Qed.

Lemma new_events_nil (w : World) (e : PlayAudioEngine) :
  new_events w (mkWorld e (trace w)) = [].
Proof. unfold new_events. cbn [trace]. apply skipn_all. Qed.

Lemma new_events_refl (w : World) : new_events w w = [].
Proof. unfold new_events. apply skipn_all. Qed.

Lemma i64_small (x : Z) : Int.in_range 64 x -> Int.i64 x = x.
Proof.
  unfold Int.in_range, Int.i64, Int.wrap. cbn. intros Hx.
  rewrite Z.mod_small by lia. lia.
Qed.

Lemma i32_small (x : Z) : Int.in_range 32 x -> Int.i32 x = x.
Proof.
  unfold Int.in_range, Int.i32, Int.wrap. cbn. intros Hx.
  rewrite Z.mod_small by lia. lia.
Qed.

(** *** Closing *)

Lemma closeOutputStream_run (w : World) :
  match mPlayStream (engine w) with
  | Some s =>
      let r1 := p_requestStop plat (trace w) s in
      let h1 := trace w ++ RequestStop s r1
                  :: reported "Error stopping output stream. %s" r1 in
      let r2 := p_close plat h1 s in
      closeOutputStream plat w =
        Some (tt, mkWorld (engine w)
                    (h1 ++ Close s r2 :: reported "Error closing output stream. %s" r2))
  | None => closeOutputStream plat w = Some (tt, w)
  end.
Proof.
  destruct w as [e h]. unfold closeOutputStream, requestStop, close, reported. run.
  destruct (mPlayStream e) as [s|]; run; [|reflexivity].
  destruct (result_eqb (p_requestStop plat h s) OBOE_OK); run;
    branch; run; reflexivity.
Qed.

(** C7. [closeOutputStream] on an engine that holds a stream requests the
    stop and then the close, whatever the stop answered; each failure is
    logged on its own; the call returns normally, the engine's fields as
    they were.  Without a stream it calls and logs nothing. *)
Theorem closeOutputStream_stops_then_closes (w : World) :
  match mPlayStream (engine w) with
  | Some s =>
      exists r1 r2 w',
        closeOutputStream plat w = Some (tt, w') /\
        engine w' = engine w /\
        new_events w w' =
          RequestStop s r1 :: reported "Error stopping output stream. %s" r1
          ++ Close s r2 :: reported "Error closing output stream. %s" r2 /\
        count_events is_RequestStop (new_events w w') = 1%nat /\
        count_events is_Close (new_events w w') = 1%nat /\
        occurs_before is_RequestStop is_Close (new_events w w') = true
  | None => closeOutputStream plat w = Some (tt, w) /\ new_events w w = []
  end.
Proof.
  pose proof (closeOutputStream_run w) as Hrun.
  destruct (mPlayStream (engine w)) as [s|].
  - cbv zeta in Hrun. rewrite <- app_assoc in Hrun. cbn [app] in Hrun.
    eexists _, _, _. split; [exact Hrun|]. split; [reflexivity|].
    rewrite new_events_app. split; [reflexivity|].
    unfold reported. do 2 destruct (result_eqb _ OBOE_OK); repeat split.
  - split; [exact Hrun|]. apply new_events_refl.
Qed.

Lemma closeOutputStream_frame (w : World) :
  exists evs,
    closeOutputStream plat w = Some (tt, mkWorld (engine w) (trace w ++ evs)) /\
    quiet evs.
Proof.
  pose proof (closeOutputStream_run w) as Hrun.
  destruct (mPlayStream (engine w)) as [s|].
  - cbv zeta in Hrun. rewrite <- app_assoc in Hrun. cbn [app] in Hrun.
    eexists. split; [exact Hrun|].
    unfold quiet, reported. do 2 destruct (result_eqb _ OBOE_OK); reflexivity.
  - exists []. rewrite app_nil_r. destruct w. split; [exact Hrun|reflexivity].
Qed.

(** *** Opening *)

(** What [createPlaybackStream] does, case by case: the open call is
    made with the builder of the engine's fields and stores its stream in
    [mPlayStream]; the rest depends on what it answered. *)
Lemma createPlaybackStream_run (w : World) :
  let b := playback_builder (engine w) in
  let before := mPlayStream (engine w) in
  let opened := p_openStream plat (trace w) b before in
  let h1 := trace w ++ [OpenStream b before (snd opened) (fst opened)] in
  match result_eqb (fst opened) OBOE_OK, snd opened with
  | true, Some s =>
      let rate := Int.i32 (p_getSampleRate plat h1 s) in
      let h2 := h1 ++ [GetSampleRate s rate] in
      let burst := Int.i32 (p_getFramesPerBurst plat h2 s) in
      let h3 := h2 ++ [GetFramesPerBurst s burst] in
      let h4 := h3 ++ [SetBufferSizeInFrames s burst
                         (p_setBufferSizeInFrames plat h3 s burst);
                       OscSetup mSineOscLeft 440 rate 1 4;
                       OscSetup mSineOscRight 660 rate 1 4;
                       NewLatencyTuner s] in
      let started := p_requestStart plat h4 s in
      let h5 := h4 ++ RequestStart s started
                  :: reported "Error starting stream. %s" started in
      let ts := p_getTimestamp plat h5 s false in
      createPlaybackStream plat w =
        Some (tt,
              mkWorld
                (set_mIsLatencyDetectionSupported
                   (negb (result_eqb (fst (fst ts)) OBOE_ERROR_UNIMPLEMENTED))
                   (set_mLatencyTuner (Some s)
                      (set_mFramesPerBurst burst
                         (set_mSampleRate rate
                            (set_mPlayStream (Some s) (engine w))))))
                (h5 ++ [GetTimestamp s false (fst (fst ts))
                          (Int.i64 (snd (fst ts))) (Int.i64 (snd ts))]))
  | _, _ =>
      createPlaybackStream plat w =
        Some (tt,
              mkWorld (set_mPlayStream (snd opened) (engine w))
                (h1 ++ [Log LOGE "Failed to create stream. Error: %s"
                          (Some (fst opened))]))
  end.
Proof.
  destruct w as [e h].
  unfold createPlaybackStream, setupPlaybackStreamParameters, openStream,
    getSampleRate, getFramesPerBurst, setBufferSizeInFrames, prepareOscillators,
    requestStart, getTimestamp, reported, playback_builder.
  cbv zeta. cbn [engine trace].
  destruct (p_openStream plat h _ (mPlayStream e)) as [r o] eqn:E.
  run. rewrite !E. run.
  destruct (result_eqb r OBOE_OK); destruct o as [s|]; run; try reflexivity.
  branch; run; reflexivity.
Qed.

(** C8. When the open call succeeds, [createPlaybackStream] records the
    stream's sample rate and burst size, sets the buffer size to one
    burst, sets up the oscillators and the tuner, requests the start
    (logging a failure), and only then probes the timestamp: one query,
    whose answer is compared with [OBOE_ERROR_UNIMPLEMENTED]. *)
Theorem createPlaybackStream_success_steps (w : World) (s : OboeStream) :
  p_openStream plat (trace w) (playback_builder (engine w)) (mPlayStream (engine w))
    = (OBOE_OK, Some s) ->
  exists w' rate burst rset started probed frame time,
    createPlaybackStream plat w = Some (tt, w') /\
    new_events w w' =
      [OpenStream (playback_builder (engine w)) (mPlayStream (engine w)) (Some s) OBOE_OK;
       GetSampleRate s rate;
       GetFramesPerBurst s burst;
       SetBufferSizeInFrames s burst rset;
       OscSetup mSineOscLeft 440 rate 1 4;
       OscSetup mSineOscRight 660 rate 1 4;
       NewLatencyTuner s;
       RequestStart s started]
      ++ reported "Error starting stream. %s" started
      ++ [GetTimestamp s false probed frame time] /\
    mPlayStream (engine w') = Some s /\
    mSampleRate (engine w') = rate /\
    mFramesPerBurst (engine w') = burst /\
    mIsLatencyDetectionSupported (engine w')
      = negb (result_eqb probed OBOE_ERROR_UNIMPLEMENTED) /\
    start_then_probe (new_events w w') = true /\
    probe_then_start (new_events w w') = false.
Proof.
  intros Hopen. pose proof (createPlaybackStream_run w) as Hrun.
  cbv zeta in Hrun. rewrite Hopen in Hrun. cbn [fst snd] in Hrun.
  change (result_eqb OBOE_OK OBOE_OK) with true in Hrun. cbv iota in Hrun.
  rewrite <- !app_assoc in Hrun. cbn [app] in Hrun.
  eexists _, _, _, _, _, _, _, _. split; [exact Hrun|].
  rewrite new_events_app.
  repeat split; unfold reported; destruct (result_eqb _ OBOE_OK); reflexivity.
Qed.

(** C2. When the open call fails, [createPlaybackStream] logs the error
    and calls nothing else; [mPlayStream] is what the open call stored in
    it.  When the open call succeeds and the request to start fails, the
    failure is logged and the opened stream stays in [mPlayStream]. *)
Theorem createPlaybackStream_failure (w : World) :
  let b := playback_builder (engine w) in
  let opened := p_openStream plat (trace w) b (mPlayStream (engine w)) in
  exists w',
    createPlaybackStream plat w = Some (tt, w') /\
    mPlayStream (engine w') = snd opened /\
    (fst opened <> OBOE_OK \/ snd opened = None ->
     new_events w w' =
       [OpenStream b (mPlayStream (engine w)) (snd opened) (fst opened);
        Log LOGE "Failed to create stream. Error: %s" (Some (fst opened))]) /\
    (forall s r,
       opened = (OBOE_OK, Some s) ->
       In (RequestStart s r) (new_events w w') ->
       r <> OBOE_OK ->
       In (Log LOGE "Error starting stream. %s" (Some r)) (new_events w w') /\
       mPlayStream (engine w') = Some s).
Proof.
  intros b opened. pose proof (createPlaybackStream_run w) as Hrun.
  cbv zeta in Hrun. fold b in Hrun. fold opened in Hrun.
  destruct opened as [r o] eqn:Eo. cbn [fst snd] in *.
  destruct (result_eqb r OBOE_OK) eqn:Er; [destruct o as [s|]|];
    rewrite <- ?app_assoc in Hrun; cbn [app] in Hrun.
  - eexists. split; [exact Hrun|]. cbn [engine trace mPlayStream set_mPlayStream
      set_mSampleRate set_mFramesPerBurst set_mLatencyTuner
      set_mIsLatencyDetectionSupported].
    split; [reflexivity|].
    unfold result_eqb in Er. destruct (oboe_result_eq_dec r OBOE_OK); [subst r|discriminate].
    split; [intros [H|H]; congruence|].
    intros s0 r0 E Hin Hr0. injection E as <-.
    rewrite new_events_app in Hin |- *. split; [|reflexivity].
    unfold reported in *.
    repeat (destruct Hin as [Hin|Hin]; [try discriminate Hin|]).
    + injection Hin as Hr. rewrite Hr.
      unfold result_eqb. destruct (oboe_result_eq_dec r0 OBOE_OK); [contradiction|].
      cbn. tauto.
    + destruct (result_eqb _ OBOE_OK); cbn in Hin;
        repeat (destruct Hin as [Hin|Hin]; [try discriminate Hin|]); contradiction.
  - eexists. split; [exact Hrun|]. cbn [engine trace mPlayStream set_mPlayStream].
    split; [reflexivity|]. split.
    + intros _. apply new_events_app.
    + intros s r0 E. discriminate E.
  - eexists. split; [exact Hrun|]. cbn [engine trace mPlayStream set_mPlayStream].
    split; [reflexivity|]. split.
    + intros _. apply new_events_app.
    + intros s r0 E. injection E as -> _. discriminate Er.
Qed.

Lemma createPlaybackStream_frame (w : World) :
  exists e' ev evs,
    createPlaybackStream plat w = Some (tt, mkWorld e' (trace w ++ ev :: evs)) /\
    is_OpenStream ev = true /\ quiet evs /\
    mRestartingLock e' = mRestartingLock (engine w) /\
    mPlaybackDeviceId e' = mPlaybackDeviceId (engine w).
Proof.
  pose proof (createPlaybackStream_run w) as Hrun. cbv zeta in Hrun.
  destruct (p_openStream plat _ _ _) as [r o]. cbn [fst snd] in Hrun.
  destruct (result_eqb r OBOE_OK); [destruct o as [s|]|];
    rewrite <- ?app_assoc in Hrun; cbn [app] in Hrun;
    eexists _, _, _; (split; [exact Hrun|]);
    unfold quiet, reported; try destruct (result_eqb _ OBOE_OK); repeat split.
Qed.

(** *** Restarting *)

Lemma restartStream_run (w : World) :
  restartStream plat w =
    if mRestartingLock (engine w)
    then Some (tt, mkWorld (engine w) (trace w ++ restart_ignored))
    else bind (closeOutputStream plat)
           (fun _ => bind (createPlaybackStream plat) (fun _ => unlock))
           (mkWorld (set_mRestartingLock true (engine w))
              (trace w ++ [Log LOGI "Restarting stream" None; TryLock true])).
Proof.
  destruct w as [e h]. unfold restartStream, try_lock, restart_ignored.
  unfold bind at 1. unfold emit at 1. cbn [engine trace].
  unfold bind at 1. unfold bind at 1. unfold this at 1. cbn [engine trace].
  destruct (mRestartingLock e); run; reflexivity.
Qed.

Lemma restartStream_frame (w : World) :
  exists e' evs,
    restartStream plat w
      = Some (tt, mkWorld e' (trace w ++ Log LOGI "Restarting stream" None :: evs)) /\
    mPlaybackDeviceId e' = mPlaybackDeviceId (engine w).
Proof.
  rewrite restartStream_run. destruct (mRestartingLock (engine w)).
  - eexists _, _. split; reflexivity.
  - unfold bind at 1.
    destruct (closeOutputStream_frame
                (mkWorld (set_mRestartingLock true (engine w))
                   (trace w ++ [Log LOGI "Restarting stream" None; TryLock true])))
      as (evs1 & -> & _).
    unfold bind at 1.
    match goal with |- context [createPlaybackStream plat ?w1] =>
      destruct (createPlaybackStream_frame w1) as (e2 & ev & evs2 & -> & _ & _ & _ & Hid)
    end.
    cbn [engine trace] in *. unfold unlock. run.
    eexists _, _. split; [reflexivity|]. exact Hid.
Qed.

(** *** Choosing the device *)

(** C6. On an engine that holds a stream, [setDeviceId] stores the id in
    [mPlaybackDeviceId] and asks the stream for its device id; when the
    two are equal nothing else happens, otherwise [restartStream] runs
    before [setDeviceId] returns. *)
Theorem setDeviceId_restarts_iff_changed (deviceId : Z) (w : World) (s : OboeStream) :
  mPlayStream (engine w) = Some s ->
  let current := Int.i32 (p_getDeviceId plat (trace w) s) in
  let w1 := mkWorld (set_mPlaybackDeviceId deviceId (engine w))
              (trace w ++ [GetDeviceId s current]) in
  setDeviceId plat deviceId w
    = (if deviceId =? current then Some (tt, w1) else restartStream plat w1) /\
  exists w',
    setDeviceId plat deviceId w = Some (tt, w') /\
    mPlaybackDeviceId (engine w') = deviceId /\
    (In (Log LOGI "Restarting stream" None) (new_events w w') <-> deviceId <> current).
Proof.
  intros Hs current w1.
  assert (Hrun : setDeviceId plat deviceId w
                 = if deviceId =? current then Some (tt, w1) else restartStream plat w1).
  { subst current w1. destruct w as [e h].
    unfold setDeviceId, getDeviceId, bind, assign, this, call.
    cbn [engine trace mPlayStream set_mPlaybackDeviceId] in Hs |- *.
    rewrite Hs. unfold deref, ret.
    destruct (deviceId =? _); reflexivity. }
  split; [exact Hrun|]. rewrite Hrun.
  destruct (Z.eqb_spec deviceId current) as [Heq|Hne].
  - exists w1. split; [reflexivity|]. split; [reflexivity|].
    unfold w1. rewrite new_events_app. cbn. split; [intros [H|[]]; discriminate H|tauto].
  - destruct (restartStream_frame w1) as (e' & evs & Hr & Hid).
    eexists. split; [exact Hr|]. split; [exact Hid|].
    unfold w1. cbn [trace]. rewrite <- app_assoc. rewrite new_events_app.
    cbn. tauto.
Qed.

(** *** Errors of the stream *)

(** C10. [onError] starts a thread that runs [restartStream], and keeps
    its handle, when the error is [OBOE_ERROR_DISCONNECTED]; for any other
    error it changes nothing and calls nothing. *)
Theorem onError_restarts_on_disconnect_only (audioStream : OboeStream)
    (error : oboe_result_t) (w : World) :
  exists w',
    onError audioStream error w = Some (tt, w') /\
    (In (ThreadStart RestartStreamTask) (new_events w w')
       <-> error = OBOE_ERROR_DISCONNECTED) /\
    (error = OBOE_ERROR_DISCONNECTED ->
       new_events w w' = [ThreadStart RestartStreamTask] /\
       engine w' = set_mStreamRestartThread (Some (threads_started (trace w))) (engine w)) /\
    (error <> OBOE_ERROR_DISCONNECTED -> w' = w).
Proof.
  unfold onError, new_thread, result_eqb.
  destruct (oboe_result_eq_dec error OBOE_ERROR_DISCONNECTED) as [->|Hne];
    unfold bind, assign, ret; cbn [engine trace].
  - eexists. split; [reflexivity|]. rewrite new_events_app.
    repeat split; cbn; tauto.
  - eexists. split; [reflexivity|]. rewrite new_events_refl.
    repeat split; cbn; try tauto; intros H; contradiction.
Qed.

(** *** The data callback *)

(** Lines 151-158 with a fixed buffer size selected. *)
Lemma adjustBufferSize_fixed (s : OboeStream) (w : World) :
  mBufferSizeSelection (engine w) <> kBufferSizeAutomatic ->
  let target := Int.mul32 (mBufferSizeSelection (engine w)) (mFramesPerBurst (engine w)) in
  let b0 := Int.i32 (p_getBufferSizeInFrames plat (trace w) s) in
  let h1 := trace w ++ [GetBufferSizeInFrames s b0;
                        SetBufferSizeInFrames s target
                          (p_setBufferSizeInFrames plat
                             (trace w ++ [GetBufferSizeInFrames s b0]) s target)] in
  let b1 := Int.i32 (p_getBufferSizeInFrames plat h1 s) in
  adjustBufferSize plat kBufferSizeAutomatic s w =
    if b0 =? target
    then Some (b0, mkWorld (engine w) (trace w ++ [GetBufferSizeInFrames s b0]))
    else Some (b1, mkWorld (engine w) (h1 ++ [GetBufferSizeInFrames s b1])).
Proof.
  intros Hfixed. apply Z.eqb_neq in Hfixed.
  unfold adjustBufferSize, getBufferSizeInFrames, setBufferSizeInFrames. run.
  rewrite Hfixed. branch; run; reflexivity.
Qed.

Lemma adjustBufferSize_frame (s : OboeStream) (w w1 : World) (bufferSize : Z) :
  adjustBufferSize plat kBufferSizeAutomatic s w = Some (bufferSize, w1) ->
  exists evs,
    w1 = mkWorld (engine w) (trace w ++ evs) /\
    forallb is_buffer_size_event evs = true.
Proof.
  unfold adjustBufferSize, getBufferSizeInFrames, setBufferSizeInFrames. run.
  destruct (mBufferSizeSelection (engine w) =? kBufferSizeAutomatic).
  - destruct (mLatencyTuner (engine w)); run; [|discriminate].
    intros [= <- <-]. eexists. split; reflexivity.
  - branch; run; intros [= <- <-]; eexists; split; reflexivity.
Qed.

Lemma adjustBufferSize_returns (s : OboeStream) (w : World) :
  (mBufferSizeSelection (engine w) = kBufferSizeAutomatic ->
   mLatencyTuner (engine w) <> None) ->
  exists bufferSize w1, adjustBufferSize plat kBufferSizeAutomatic s w = Some (bufferSize, w1).
Proof.
  intros Htuner.
  unfold adjustBufferSize, getBufferSizeInFrames, setBufferSizeInFrames. run.
  destruct (Z.eqb_spec (mBufferSizeSelection (engine w)) kBufferSizeAutomatic) as [E|E].
  - destruct (mLatencyTuner (engine w)); run; [|specialize (Htuner E); congruence].
    eexists _, _. reflexivity.
  - branch; run; eexists _, _; reflexivity.
Qed.

(** Lines 173-197, for the sample type [t] the format selects. *)
Lemma fillBuffer_run (t : sample_t) (e : PlayAudioEngine) (buf : list Byte.byte)
    (samplesPerFrame numFrames : Z) (w : World) :
  if mIsToneOn e then
    exists buf' evs,
      fillBuffer plat size_t_bits t e buf samplesPerFrame numFrames w
        = Some (buf', mkWorld (engine w) (trace w ++ evs)) /\
      forallb is_OscRender evs = true
  else
    fillBuffer plat size_t_bits t e buf samplesPerFrame numFrames w =
      match memset buf (memset_size size_t_bits t samplesPerFrame numFrames) with
      | Some buf' => Some (buf', w)
      | None => None
      end.
Proof.
  unfold fillBuffer, zeroFill, render, memset_size. destruct (mIsToneOn e); run.
  - branch; run; eexists _, _; split; reflexivity.
  - destruct (memset buf _); reflexivity.
Qed.

(** Lines 199-201 and [calculateCurrentOutputLatencyMillis]. *)
Lemma updateLatency_run (s : OboeStream) (w : World) :
  let ts := p_getTimestamp plat (trace w) s true in
  let result := fst (fst ts) in
  let existingFrameIndex := Int.i64 (snd (fst ts)) in
  let existingFramePresentationTime := Int.i64 (snd ts) in
  let h1 := trace w ++ [GetTimestamp s true result existingFrameIndex
                          existingFramePresentationTime] in
  let writeIndex := Int.i64 (p_getFramesWritten plat h1 s) in
  let h2 := h1 ++ [GetFramesWritten s writeIndex] in
  let nextFrameWriteTime := Int.i64 (p_getNanoseconds plat h2) in
  updateLatency plat s w =
    if mIsLatencyDetectionSupported (engine w) then
      if result_eqb result OBOE_OK then
        match Int.div64 (Int.mul64 (Int.sub64 writeIndex existingFrameIndex)
                           OBOE_NANOS_PER_SECOND)
                        (mSampleRate (engine w)) with
        | Some frameTimeDelta =>
            Some (tt,
                  mkWorld
                    (set_mCurrentOutputLatencyMillis
                       (double_div
                          (double_of_int64
                             (Int.sub64
                                (Int.add64 existingFramePresentationTime frameTimeDelta)
                                nextFrameWriteTime))
                          (double_of_int64 kNanosPerMillisecond))
                       (engine w))
                    (h2 ++ [GetNanoseconds nextFrameWriteTime]))
        | None => None
        end
      else
        Some (tt, mkWorld (engine w) (h1 ++ [Log LOGE latency_unavailable (Some result)]))
    else Some (tt, w).
Proof.
  destruct w as [e h].
  unfold updateLatency, calculateCurrentOutputLatencyMillis, getTimestamp,
    getFramesWritten, getNanoseconds, latency_unavailable.
  cbv zeta. cbn [engine trace].
  unfold bind at 1. unfold this at 1. cbn [engine trace].
  destruct (mIsLatencyDetectionSupported e); [|reflexivity].
  unfold bind at 1. unfold bind at 1. unfold call at 1. cbv zeta.
  cbn [engine trace fst snd].
  destruct (result_eqb (fst (fst (p_getTimestamp plat h s true))) OBOE_OK); run;
    [|reflexivity].
  destruct (Int.div64 _ (mSampleRate e)); run; reflexivity.
Qed.

Lemma count_events_app (p : event -> bool) (h1 h2 : history) :
  count_events p (h1 ++ h2) = (count_events p h1 + count_events p h2)%nat.
Proof. unfold count_events. rewrite filter_app, length_app. reflexivity. Qed.

Lemma count_events_cons (p : event -> bool) (ev : event) (h : history) :
  count_events p (ev :: h) = ((if p ev then 1 else 0) + count_events p h)%nat.
Proof. unfold count_events. cbn. destruct (p ev); reflexivity. Qed.

Lemma count_events_none (p q : event -> bool) (h : history) :
  forallb q h = true ->
  (forall ev, q ev = true -> p ev = false) ->
  count_events p h = 0%nat.
Proof.
  intros Hall Hpq. unfold count_events.
  induction h as [|ev h IH]; [reflexivity|].
  cbn in Hall |- *. apply andb_prop in Hall as [Hev Hh].
  rewrite (Hpq ev Hev). exact (IH Hh).
Qed.

Lemma latency_outcome_count (p : event -> bool) (s : OboeStream)
    (e e' : PlayAudioEngine) (evs : history) :
  latency_outcome s e e' evs ->
  (forall ev, p ev = true ->
     is_GetTimestamp ev = false /\ is_Log ev = false /\
     match ev with GetFramesWritten _ _ | GetNanoseconds _ => false | _ => true end = true) ->
  count_events p evs = 0%nat.
Proof.
  intros Hout Hp.
  assert (Hno : forall ev, In ev evs -> p ev = false).
  { intros ev Hin. destruct (p ev) eqn:E; [|reflexivity].
    destruct (Hp ev E) as (H1 & H2 & H3).
    destruct Hout; cbn in Hin;
      repeat (destruct Hin as [<-|Hin]; [discriminate|]); contradiction. }
  unfold count_events. clear Hout.
  induction evs as [|ev evs IH]; [reflexivity|].
  cbn. rewrite (Hno ev (or_introl eq_refl)). apply IH.
  intros ev' Hin. apply Hno. right. exact Hin.
Qed.

(** The callback, phase by phase. *)
Lemma onAudioReady_run (s : OboeStream) (buf : list Byte.byte) (n : Z) (w : World) :
  onAudioReady plat kBufferSizeAutomatic size_t_bits s buf n w =
    match adjustBufferSize plat kBufferSizeAutomatic s w with
    | Some (bufferSize, w1) =>
        let underruns := Int.i32 (p_getXRunCount plat (trace w1) s) in
        let h1 := trace w1 ++ [GetXRunCount s underruns;
                               TraceBeginSection n underruns bufferSize] in
        let format := p_getFormat plat h1 s in
        match fillBuffer plat size_t_bits (sample_of_format format) (engine w1) buf
                (mSampleChannels (engine w1)) n
                (mkWorld (engine w1) (h1 ++ [GetFormat s format])) with
        | Some (buf', w2) =>
            match updateLatency plat s w2 with
            | Some (_, w3) =>
                Some ((OBOE_CALLBACK_RESULT_CONTINUE, buf'),
                      mkWorld (engine w3) (trace w3 ++ [TraceEndSection]))
            | None => None
            end
        | None => None
        end
    | None => None
    end.
Proof.
  unfold onAudioReady. unfold bind at 1.
  destruct (adjustBufferSize plat kBufferSizeAutomatic s w) as [[bufferSize w1]|];
    [|reflexivity].
  unfold getXRunCount, getFormat, sample_of_format.
  unfold bind at 1. unfold call at 1. cbv zeta. cbn [engine trace].
  unfold bind at 1. unfold emit at 1. cbn [engine trace].
  unfold bind at 1. unfold this at 1. cbn [engine trace].
  unfold bind at 1. unfold call at 1. cbv zeta. cbn [engine trace].
  rewrite <- !app_assoc. cbn [app].
  unfold bind at 1.
  destruct (is_pcm_float _);
    (destruct (fillBuffer _ _ _ _ _ _ _ _) as [[buf' w2]|]; [|reflexivity]);
    unfold bind at 1;
    (destruct (updateLatency plat s w2) as [[[] w3]|]; [|reflexivity]);
    reflexivity.
Qed.

Lemma updateLatency_outcome (s : OboeStream) (w w' : World) :
  updateLatency plat s w = Some (tt, w') ->
  exists evs,
    trace w' = trace w ++ evs /\ latency_outcome s (engine w) (engine w') evs.
Proof.
  rewrite updateLatency_run. cbv zeta.
  destruct (mIsLatencyDetectionSupported (engine w)) eqn:Hsup.
  - unfold result_eqb.
    destruct (oboe_result_eq_dec (fst (fst (p_getTimestamp plat (trace w) s true))) OBOE_OK)
      as [Hok|Hne].
    + destruct (Int.div64 _ _); [|discriminate]. intros [= <-].
      cbn [engine trace]. rewrite <- !app_assoc. cbn [app]. rewrite Hok.
      eexists. split; [reflexivity|]. econstructor. reflexivity.
    + intros [= <-]. cbn [engine trace]. rewrite <- !app_assoc. cbn [app].
      eexists. split; [reflexivity|]. constructor; [exact Hne|reflexivity].
  - intros [= <-]. exists []. rewrite app_nil_r. split; [reflexivity|].
    constructor; [exact Hsup|reflexivity].
Qed.

Lemma onAudioReady_inv (s : OboeStream) (buf : list Byte.byte) (n : Z) (w : World)
    (r : oboe_data_callback_result_t) (buf' : list Byte.byte) (w' : World) :
  onAudioReady plat kBufferSizeAutomatic size_t_bits s buf n w = Some (r, buf', w') ->
  exists bufferSize sized underruns format filled measured,
    adjustBufferSize plat kBufferSizeAutomatic s w
      = Some (bufferSize, mkWorld (engine w) (trace w ++ sized)) /\
    forallb is_buffer_size_event sized = true /\
    r = OBOE_CALLBACK_RESULT_CONTINUE /\
    trace w' = trace w ++ sized
               ++ [GetXRunCount s underruns;
                   TraceBeginSection n underruns bufferSize;
                   GetFormat s format]
               ++ filled ++ measured ++ [TraceEndSection] /\
    forallb is_OscRender filled = true /\
    (mIsToneOn (engine w) = false ->
     filled = [] /\
     memset buf (memset_size size_t_bits (sample_of_format format)
                   (mSampleChannels (engine w)) n) = Some buf') /\
    latency_outcome s (engine w) (engine w') measured.
Proof.
  rewrite onAudioReady_run.
  destruct (adjustBufferSize plat kBufferSizeAutomatic s w) as [[bufferSize w1]|] eqn:Hsize;
    [|discriminate].
  destruct (adjustBufferSize_frame _ _ _ _ Hsize) as (sized & -> & Hsized).
  cbv zeta. cbn [engine trace].
  match goal with |- context [fillBuffer plat size_t_bits ?t ?e ?b ?c ?m ?w0] =>
    pose proof (fillBuffer_run t e b c m w0) as Hfill
  end.
  destruct (mIsToneOn (engine w)) eqn:Htone.
  - destruct Hfill as (buf1 & filled & -> & Hfilled). cbn [engine trace].
    match goal with |- context [updateLatency plat s ?w2] =>
      destruct (updateLatency plat s w2) as [[[] w3]|] eqn:Hlat; [|discriminate];
      destruct (updateLatency_outcome _ _ _ Hlat) as (measured & Htr & Hout)
    end.
    intros [= <- <- <-]. cbn [engine trace] in *.
    eexists _, _, _, _, filled, measured. split; [reflexivity|].
    split; [exact Hsized|]. split; [reflexivity|].
    split; [rewrite Htr; rewrite <- !app_assoc; reflexivity|].
    split; [exact Hfilled|]. split; [discriminate|exact Hout].
  - rewrite Hfill. destruct (memset buf _) as [buf1|] eqn:Hset; [|discriminate].
    match goal with |- context [updateLatency plat s ?w2] =>
      destruct (updateLatency plat s w2) as [[[] w3]|] eqn:Hlat; [|discriminate];
      destruct (updateLatency_outcome _ _ _ Hlat) as (measured & Htr & Hout)
    end.
    intros [= <- <- <-]. cbn [engine trace] in *.
    rewrite <- !app_assoc in Hset.
    eexists _, _, _, _, [], measured. split; [reflexivity|].
    split; [exact Hsized|]. split; [reflexivity|].
    split; [rewrite Htr; rewrite <- !app_assoc; reflexivity|].
    split; [reflexivity|]. split; [intros _; split; [reflexivity|exact Hset]|exact Hout].
Qed.

Lemma updateLatency_returns (s : OboeStream) (w : World) :
  (mIsLatencyDetectionSupported (engine w) = true -> mSampleRate (engine w) <> 0) ->
  exists w', updateLatency plat s w = Some (tt, w').
Proof.
  intros Hrate. rewrite updateLatency_run. cbv zeta.
  destruct (mIsLatencyDetectionSupported (engine w)); [|eexists; reflexivity].
  destruct (result_eqb _ OBOE_OK); [|eexists; reflexivity].
  unfold Int.div64. specialize (Hrate eq_refl). apply Z.eqb_neq in Hrate.
  rewrite Hrate. eexists; reflexivity.
Qed.

(** [updateLatency] faults on a division by zero only. *)
Lemma updateLatency_returns_iff (s : OboeStream) (w : World) :
  (mIsLatencyDetectionSupported (engine w) = true ->
   fst (fst (p_getTimestamp plat (trace w) s true)) = OBOE_OK ->
   mSampleRate (engine w) <> 0) <->
  exists w', updateLatency plat s w = Some (tt, w').
Proof.
  rewrite updateLatency_run. cbv zeta.
  destruct (mIsLatencyDetectionSupported (engine w));
    [|split; [intros _; eexists; reflexivity|intros _; discriminate]].
  unfold result_eqb.
  destruct (oboe_result_eq_dec (fst (fst (p_getTimestamp plat (trace w) s true))) OBOE_OK)
    as [Hok|Hne]; [|split; [intros _; eexists; reflexivity|intros _ _ Hok; contradiction]].
  unfold Int.div64. destruct (Z.eqb_spec (mSampleRate (engine w)) 0) as [E|E].
  - split; [intros H; destruct (H eq_refl Hok E)|intros (w' & Hw'); discriminate].
  - split; [intros _; eexists; reflexivity|intros _ _ _; exact E].
Qed.


(** The callback as far as line 173. *)
Lemma callback_sample_type_run (s : OboeStream) (n : Z) (w : World) :
  callback_sample_type plat kBufferSizeAutomatic s n w =
    match adjustBufferSize plat kBufferSizeAutomatic s w with
    | Some (bufferSize, w1) =>
        let underruns := Int.i32 (p_getXRunCount plat (trace w1) s) in
        let h1 := trace w1 ++ [GetXRunCount s underruns;
                               TraceBeginSection n underruns bufferSize] in
        let format := p_getFormat plat h1 s in
        Some (sample_of_format format, mkWorld (engine w1) (h1 ++ [GetFormat s format]))
    | None => None
    end.
Proof.
  unfold callback_sample_type. unfold bind at 1.
  destruct (adjustBufferSize plat kBufferSizeAutomatic s w) as [[bufferSize w1]|];
    [|reflexivity].
  unfold getXRunCount, getFormat.
  unfold bind at 1. unfold call at 1. cbv zeta. cbn [engine trace].
  unfold bind at 1. unfold emit at 1. cbn [engine trace].
  unfold bind at 1. unfold call at 1. cbv zeta. cbn [engine trace].
  unfold ret. rewrite <- !app_assoc. reflexivity.
Qed.

Lemma callback_sample_type_frame (s : OboeStream) (n : Z) (w w1 : World) (t : sample_t) :
  callback_sample_type plat kBufferSizeAutomatic s n w = Some (t, w1) ->
  exists bufferSize sized underruns format,
    adjustBufferSize plat kBufferSizeAutomatic s w
      = Some (bufferSize, mkWorld (engine w) (trace w ++ sized)) /\
    forallb is_buffer_size_event sized = true /\
    t = sample_of_format format /\
    w1 = mkWorld (engine w)
           (trace w ++ sized ++ [GetXRunCount s underruns;
                                 TraceBeginSection n underruns bufferSize;
                                 GetFormat s format]).
Proof.
  rewrite callback_sample_type_run.
  destruct (adjustBufferSize plat kBufferSizeAutomatic s w) as [[bufferSize w0]|] eqn:Hsize;
    [|discriminate].
  destruct (adjustBufferSize_frame _ _ _ _ Hsize) as (sized & -> & Hsized).
  cbv zeta. cbn [engine trace]. intros [= <- <-].
  eexists bufferSize, sized, _, _. split; [reflexivity|]. split; [exact Hsized|].
  split; [reflexivity|]. rewrite <- !app_assoc. reflexivity.
Qed.

(** The callback, by what it does first, then, and last. *)
Lemma onAudioReady_phases (s : OboeStream) (buf : list Byte.byte) (n : Z) (w : World) :
  onAudioReady plat kBufferSizeAutomatic size_t_bits s buf n w =
    match callback_sample_type plat kBufferSizeAutomatic s n w with
    | Some (t, w1) =>
        match fillBuffer plat size_t_bits t (engine w1) buf
                (mSampleChannels (engine w1)) n w1 with
        | Some (buf', w2) =>
            match updateLatency plat s w2 with
            | Some (_, w3) =>
                Some ((OBOE_CALLBACK_RESULT_CONTINUE, buf'),
                      mkWorld (engine w3) (trace w3 ++ [TraceEndSection]))
            | None => None
            end
        | None => None
        end
    | None => None
    end.
Proof.
  rewrite onAudioReady_run, callback_sample_type_run.
  destruct (adjustBufferSize plat kBufferSizeAutomatic s w) as [[bufferSize w1]|];
    reflexivity.
Qed.

Lemma fillBuffer_frame (t : sample_t) (e : PlayAudioEngine) (buf buf' : list Byte.byte)
    (samplesPerFrame n : Z) (w w2 : World) :
  fillBuffer plat size_t_bits t e buf samplesPerFrame n w = Some (buf', w2) ->
  exists filled,
    w2 = mkWorld (engine w) (trace w ++ filled) /\
    forallb is_OscRender filled = true /\
    (mIsToneOn e = false ->
     filled = [] /\
     memset_size size_t_bits t samplesPerFrame n <= Z.of_nat (List.length buf)).
Proof.
  pose proof (fillBuffer_run t e buf samplesPerFrame n w) as Hfill.
  destruct (mIsToneOn e).
  - destruct Hfill as (buf1 & filled & -> & Hfilled). intros [= <- <-].
    exists filled. split; [reflexivity|]. split; [exact Hfilled|discriminate].
  - rewrite Hfill. unfold memset.
    destruct (Z.leb_spec (memset_size size_t_bits t samplesPerFrame n)
                (Z.of_nat (List.length buf))) as [Hle|Hgt]; [|discriminate].
    intros [= <- <-]. exists []. rewrite app_nil_r.
    split; [destruct w; reflexivity|]. split; [reflexivity|].
    intros _. split; [reflexivity|exact Hle].
Qed.

(** The callback returns whenever it is ready, with the continue
    directive. *)
Lemma onAudioReady_returns (s : OboeStream) (buf : list Byte.byte) (n : Z) (w : World) :
  callback_ready plat kBufferSizeAutomatic size_t_bits s buf n w ->
  exists buf' w',
    onAudioReady plat kBufferSizeAutomatic size_t_bits s buf n w
      = Some (OBOE_CALLBACK_RESULT_CONTINUE, buf', w').
Proof.
  intros (Htuner & Hfits & Hrate). unfold callback_timestamp in Hrate.
  rewrite onAudioReady_phases.
  destruct (callback_sample_type plat kBufferSizeAutomatic s n w) as [[t w1]|] eqn:Htype.
  - destruct (callback_sample_type_frame _ _ _ _ _ Htype)
      as (bufferSize & sized & underruns & format & _ & _ & _ & ->).
    cbn [engine trace] in *.
    match goal with |- context [fillBuffer plat size_t_bits ?t ?e ?b ?c ?m ?w0] =>
      pose proof (fillBuffer_run t e b c m w0) as Hfill;
      destruct (fillBuffer plat size_t_bits t e b c m w0) as [[buf1 w2]|] eqn:Hfilled
    end.
    + destruct (fillBuffer_frame _ _ _ _ _ _ _ _ Hfilled) as (filled & -> & _).
      cbn [engine trace] in *.
      match goal with |- context [updateLatency plat s ?w2] =>
        destruct (proj1 (updateLatency_returns_iff s w2)) as (w3 & ->)
      end.
      * cbn [engine trace]. intros Hsup Hok. apply (Hrate Hsup). rewrite Hok. reflexivity.
      * eexists _, _. reflexivity.
    + revert Hfill. destruct (mIsToneOn (engine w)) eqn:Htone; intros Hfill.
      * destruct Hfill as (buf1 & filled & Hfill & _). discriminate Hfill.
      * unfold memset in Hfill.
        specialize (Hfits eq_refl _ _ eq_refl). apply Z.leb_le in Hfits.
        rewrite Hfits in Hfill. discriminate Hfill.
  - rewrite callback_sample_type_run in Htype.
    destruct (adjustBufferSize_returns s w Htuner) as (bufferSize & w1 & Hsize).
    rewrite Hsize in Htype. discriminate Htype.
Qed.


Lemma new_events_eq (w w' : World) (evs : history) :
  trace w' = trace w ++ evs -> new_events w w' = evs.
Proof.
  unfold new_events. intros ->.
  rewrite skipn_app, skipn_all, Nat.sub_diag. reflexivity.
Qed.

(** C4. With a fixed buffer size selected, the callback reads the
    stream's buffer size and compares it with the product of
    [mBufferSizeSelection] and [mFramesPerBurst], the [int32_t] product
    the code computes, which is their product whenever that fits.  When
    they are equal it requests no buffer size.  When they differ it
    requests the product, once, and reads the buffer size again: what the
    stream answers then is what the rest of the callback uses. *)
Theorem onAudioReady_fixed_buffer_size (s : OboeStream) (buf : list Byte.byte) (n : Z)
    (w : World) :
  mBufferSizeSelection (engine w) <> kBufferSizeAutomatic ->
  let M := mBufferSizeSelection (engine w) in
  let B := mFramesPerBurst (engine w) in
  let target := Int.mul32 M B in
  let b0 := Int.i32 (p_getBufferSizeInFrames plat (trace w) s) in
  (Int.in_range 32 (M * B) -> target = M * B) /\
  (callback_ready plat kBufferSizeAutomatic size_t_bits s buf n w ->
   exists buf' w',
     onAudioReady plat kBufferSizeAutomatic size_t_bits s buf n w
       = Some (OBOE_CALLBACK_RESULT_CONTINUE, buf', w')) /\
  (forall r buf' w',
     onAudioReady plat kBufferSizeAutomatic size_t_bits s buf n w = Some (r, buf', w') ->
     exists underruns rest,
       if b0 =? target then
         new_events w w' =
           GetBufferSizeInFrames s b0 :: GetXRunCount s underruns
           :: TraceBeginSection n underruns b0 :: rest /\
         count_events is_SetBufferSizeInFrames (new_events w w') = 0%nat
       else
         exists answer b1,
           b1 = Int.i32 (p_getBufferSizeInFrames plat
                           (trace w ++ [GetBufferSizeInFrames s b0;
                                        SetBufferSizeInFrames s target answer]) s) /\
           new_events w w' =
             GetBufferSizeInFrames s b0 :: SetBufferSizeInFrames s target answer
             :: GetBufferSizeInFrames s b1 :: GetXRunCount s underruns
             :: TraceBeginSection n underruns b1 :: rest /\
           count_events is_SetBufferSizeInFrames (new_events w w') = 1%nat).
Proof.
  intros Hfixed M B target b0.
  split; [intros Hfits; apply i32_small; exact Hfits|].
  split; [apply onAudioReady_returns|].
  intros r buf' w' Hrun.
  destruct (onAudioReady_inv _ _ _ _ _ _ _ Hrun)
    as (bufferSize & sized & underruns & format & filled & measured
        & Hsize & _ & _ & Htrace & Hfilled & _ & Hout).
  rewrite (adjustBufferSize_fixed s w Hfixed) in Hsize. cbv zeta in Hsize.
  fold M B in Hsize. fold target in Hsize. fold b0 in Hsize.
  assert (Hrest : count_events is_SetBufferSizeInFrames
                    (filled ++ measured ++ [TraceEndSection]) = 0%nat).
  { rewrite !count_events_app.
    rewrite (count_events_none _ _ _ Hfilled) by (intros []; cbn; congruence).
    rewrite (latency_outcome_count _ _ _ _ _ Hout)
      by (intros []; cbn; try discriminate; auto).
    reflexivity. }
  exists underruns, (GetFormat s format :: filled ++ measured ++ [TraceEndSection]).
  destruct (b0 =? target).
  - injection Hsize as <- Hsized. apply app_inv_head in Hsized. subst sized.
    rewrite (new_events_eq _ _ _ Htrace). split; [reflexivity|].
    cbn [app]. change (count_events is_SetBufferSizeInFrames
              (filled ++ measured ++ [TraceEndSection]) = 0%nat). exact Hrest.
  - injection Hsize as <- Hsized. rewrite <- app_assoc in Hsized.
    apply app_inv_head in Hsized. subst sized.
    rewrite (new_events_eq _ _ _ Htrace).
    eexists _, _. split; [reflexivity|]. split; [reflexivity|].
    cbn [app]. change (S (count_events is_SetBufferSizeInFrames
              (filled ++ measured ++ [TraceEndSection])) = 1%nat).
    rewrite Hrest. reflexivity.
Qed.

Lemma memset_size_exact (t : sample_t) (channels N : Z) :
  0 <= frame_bytes t channels N < 2 ^ size_t_bits ->
  memset_size size_t_bits t channels N = frame_bytes t channels N.
Proof.
  unfold memset_size, frame_bytes, Int.umul, Int.to_unsigned. intros Hsmall.
  assert (Hpos : 2 ^ size_t_bits <> 0) by lia.
  rewrite Z.mul_mod_idemp_r by exact Hpos.
  rewrite Z.mul_mod_idemp_l by exact Hpos.
  replace (sizeof t * (channels mod 2 ^ size_t_bits) * N)
    with (channels mod 2 ^ size_t_bits * (sizeof t * N)) by ring.
  rewrite Z.mul_mod_idemp_l by exact Hpos.
  replace (channels * (sizeof t * N)) with (N * channels * sizeof t) by ring.
  apply Z.mod_small. exact Hsmall.
Qed.

(** C9. With the tone off, the callback writes [N] frames of zero bytes,
    [N * channels * sizeof(sample)] bytes, at the start of the buffer,
    for a stream of float samples and for one of 16-bit samples, and
    renders nothing.  The buffer is one that holds [N] frames. *)
Theorem onAudioReady_silence (s : OboeStream) (t : sample_t) (buf : list Byte.byte)
    (N : Z) (w : World) :
  mIsToneOn (engine w) = false ->
  (forall h, sample_of_format (p_getFormat plat h s) = t) ->
  0 <= N ->
  0 <= mSampleChannels (engine w) ->
  frame_bytes t (mSampleChannels (engine w)) N <= Z.of_nat (List.length buf) ->
  Z.of_nat (List.length buf) < 2 ^ size_t_bits ->
  (mBufferSizeSelection (engine w) = kBufferSizeAutomatic ->
   mLatencyTuner (engine w) <> None) ->
  (mIsLatencyDetectionSupported (engine w) = true -> mSampleRate (engine w) <> 0) ->
  exists w',
    onAudioReady plat kBufferSizeAutomatic size_t_bits s buf N w
      = Some (OBOE_CALLBACK_RESULT_CONTINUE,
              zeroed (frame_bytes t (mSampleChannels (engine w)) N) buf, w') /\
    count_events is_OscRender (new_events w w') = 0%nat /\
    List.length (zeroed (frame_bytes t (mSampleChannels (engine w)) N) buf)
      = List.length buf /\
    firstn (Z.to_nat (frame_bytes t (mSampleChannels (engine w)) N))
           (zeroed (frame_bytes t (mSampleChannels (engine w)) N) buf)
      = repeat Byte.x00 (Z.to_nat (frame_bytes t (mSampleChannels (engine w)) N)).
Proof.
  intros Htone Hformat HN Hch Hfits Hsize Htuner Hrate.
  set (bytes := frame_bytes t (mSampleChannels (engine w)) N) in *.
  assert (Hbytes : 0 <= bytes).
  { unfold bytes, frame_bytes. destruct t; cbn [sizeof]; nia. }
  assert (Hexact : memset_size size_t_bits t (mSampleChannels (engine w)) N = bytes).
  { apply memset_size_exact. fold bytes. lia. }
  rewrite onAudioReady_run.
  destruct (adjustBufferSize_returns s w Htuner) as (bufferSize & w1 & Hadj).
  rewrite Hadj.
  destruct (adjustBufferSize_frame _ _ _ _ Hadj) as (sized & -> & Hsized).
  cbv zeta. cbn [engine trace]. rewrite Hformat.
  match goal with |- context [fillBuffer plat size_t_bits ?t ?e ?b ?c ?m ?w0] =>
    pose proof (fillBuffer_run t e b c m w0) as Hfill
  end.
  rewrite Htone in Hfill. rewrite Hfill, Hexact. unfold memset.
  apply Z.leb_le in Hfits. rewrite Hfits. apply Z.leb_le in Hfits.
  match goal with |- context [updateLatency plat s ?w2] =>
    destruct (updateLatency plat s w2) as [[[] w3]|] eqn:Hlat;
      [destruct (updateLatency_outcome _ _ _ Hlat) as (measured & Htr & Hout)
      |destruct (updateLatency_returns s w2 Hrate) as (w3 & Hw3); congruence]
  end.
  eexists. split; [reflexivity|]. cbn [engine trace] in *.
  split; [|split].
  - erewrite new_events_eq
      by (cbn [trace]; rewrite Htr; rewrite <- !app_assoc; reflexivity).
    rewrite !count_events_app.
    rewrite (count_events_none _ _ _ Hsized) by (intros []; cbn; congruence).
    rewrite (latency_outcome_count _ _ _ _ _ Hout)
      by (intros []; cbn; try discriminate; auto).
    reflexivity.
  - unfold zeroed. rewrite length_app, repeat_length, length_skipn. lia.
  - unfold zeroed. rewrite firstn_app, repeat_length, Nat.sub_diag.
    cbn [firstn]. rewrite app_nil_r.
    rewrite firstn_all2 by (rewrite repeat_length; lia). reflexivity.
Qed.


(** *** The latency estimate *)

Lemma calculateCurrentOutputLatencyMillis_run (s : OboeStream) (w : World) :
  let ts := p_getTimestamp plat (trace w) s true in
  let result := fst (fst ts) in
  let existingFrameIndex := Int.i64 (snd (fst ts)) in
  let existingFramePresentationTime := Int.i64 (snd ts) in
  let h1 := trace w ++ [GetTimestamp s true result existingFrameIndex
                          existingFramePresentationTime] in
  let writeIndex := Int.i64 (p_getFramesWritten plat h1 s) in
  let h2 := h1 ++ [GetFramesWritten s writeIndex] in
  let nextFrameWriteTime := Int.i64 (p_getNanoseconds plat h2) in
  calculateCurrentOutputLatencyMillis plat s w =
    if result_eqb result OBOE_OK then
      match Int.div64 (Int.mul64 (Int.sub64 writeIndex existingFrameIndex)
                         OBOE_NANOS_PER_SECOND)
                      (mSampleRate (engine w)) with
      | Some frameTimeDelta =>
          Some ((result,
                 Some (double_div
                         (double_of_int64
                            (Int.sub64
                               (Int.add64 existingFramePresentationTime frameTimeDelta)
                               nextFrameWriteTime))
                         (double_of_int64 kNanosPerMillisecond))),
                mkWorld (engine w) (h2 ++ [GetNanoseconds nextFrameWriteTime]))
      | None => None
      end
    else
      Some ((result, None),
            mkWorld (engine w) (h1 ++ [Log LOGE latency_unavailable (Some result)])).
Proof.
  destruct w as [e h].
  unfold calculateCurrentOutputLatencyMillis, getTimestamp,
    getFramesWritten, getNanoseconds, latency_unavailable.
  cbv zeta. cbn [engine trace].
  unfold bind at 1. unfold call at 1. cbv zeta. cbn [engine trace fst snd].
  destruct (result_eqb (fst (fst (p_getTimestamp plat h s true))) OBOE_OK); run;
    [|reflexivity].
  destruct (Int.div64 _ (mSampleRate e)); run; reflexivity.
Qed.

(** Lines 242-252 in [int64_t] are the spec's integers as long as nothing
    leaves the range. *)
Lemma latency_nanos_exact (presented_frame_index presented_time frames_written
    sample_rate now : Z) :
  Int.in_range 64 presented_frame_index ->
  Int.in_range 64 presented_time ->
  Int.in_range 64 frames_written ->
  Int.in_range 64 now ->
  presented_frame_index <= frames_written ->
  0 < sample_rate ->
  (frames_written - presented_frame_index) * 1000000000 <= Int.max64 ->
  presented_time + (frames_written - presented_frame_index) * 1000000000 / sample_rate
    <= Int.max64 ->
  Int.in_range 64
    (latency_estimate_nanos presented_frame_index presented_time frames_written
       sample_rate now) ->
  exists frameTimeDelta,
    Int.div64 (Int.mul64 (Int.sub64 frames_written presented_frame_index)
                 OBOE_NANOS_PER_SECOND) sample_rate = Some frameTimeDelta /\
    Int.sub64 (Int.add64 presented_time frameTimeDelta) now
      = latency_estimate_nanos presented_frame_index presented_time frames_written
          sample_rate now.
Proof.
  intros Rpfi Rpt Rfw Rnow Hle Hrate Hmul Hadd Hsub.
  unfold latency_estimate_nanos in *. cbv zeta in Hsub.
  unfold Int.in_range, Int.max64 in *. cbn in Rpfi, Rpt, Rfw, Rnow, Hsub, Hmul, Hadd.
  assert (Hdelta : Int.sub64 frames_written presented_frame_index
                   = frames_written - presented_frame_index).
  { apply i64_small. unfold Int.in_range. cbn. lia. }
  assert (Hprod : Int.mul64 (frames_written - presented_frame_index) OBOE_NANOS_PER_SECOND
                  = (frames_written - presented_frame_index) * 1000000000).
  { apply i64_small. unfold Int.in_range. cbn. lia. }
  pose proof (Z.div_pos ((frames_written - presented_frame_index) * 1000000000)
                sample_rate ltac:(lia) Hrate) as Hq0.
  pose proof (Z.div_le_upper_bound ((frames_written - presented_frame_index) * 1000000000)
                sample_rate ((frames_written - presented_frame_index) * 1000000000)
                Hrate ltac:(nia)) as Hq1.
  unfold Int.div64.
  destruct (Z.eqb_spec sample_rate 0) as [E|_]; [lia|].
  rewrite Hdelta, Hprod.
  rewrite Z.quot_div_nonneg by lia.
  rewrite (i64_small ((frames_written - presented_frame_index) * 1000000000 / sample_rate))
    by (unfold Int.in_range; cbn; lia).
  eexists. split; [reflexivity|].
  unfold Int.add64, Int.sub64.
  rewrite (i64_small (presented_time + _)) by (unfold Int.in_range; cbn; lia).
  apply i64_small. unfold Int.in_range. cbn. lia.
Qed.

(** C1. Given the timestamp (frame presented, time presented), the
    frames written, the sample rate and the time now, with the frames
    written not before the frame presented, a positive sample rate, and
    the product [delta_frames * 1e9], the predicted presentation time and
    its distance to now within [int64_t], the latency computed, and cached
    by the callback, is the spec's estimate, a function of these five
    values: the nanoseconds computed exactly in integers, converted to a
    double and divided by 1,000,000. *)
Theorem latency_estimate_exact (s : OboeStream) (w : World)
    (presented_frame_index presented_time frames_written now : Z) :
  let sample_rate := mSampleRate (engine w) in
  let h1 := trace w ++ [GetTimestamp s true OBOE_OK presented_frame_index presented_time] in
  let h2 := h1 ++ [GetFramesWritten s frames_written] in
  let estimate := latency_estimate_millis presented_frame_index presented_time
                    frames_written sample_rate now in
  p_getTimestamp plat (trace w) s true = (OBOE_OK, presented_frame_index, presented_time) ->
  p_getFramesWritten plat h1 s = frames_written ->
  p_getNanoseconds plat h2 = now ->
  Int.in_range 64 presented_frame_index ->
  Int.in_range 64 presented_time ->
  Int.in_range 64 frames_written ->
  Int.in_range 64 now ->
  presented_frame_index <= frames_written ->
  0 < sample_rate ->
  (frames_written - presented_frame_index) * 1000000000 <= Int.max64 ->
  presented_time + (frames_written - presented_frame_index) * 1000000000 / sample_rate
    <= Int.max64 ->
  Int.in_range 64
    (latency_estimate_nanos presented_frame_index presented_time frames_written
       sample_rate now) ->
  calculateCurrentOutputLatencyMillis plat s w =
    Some ((OBOE_OK, Some estimate),
          mkWorld (engine w) (h2 ++ [GetNanoseconds now])) /\
  (mIsLatencyDetectionSupported (engine w) = true ->
   updateLatency plat s w =
     Some (tt, mkWorld (set_mCurrentOutputLatencyMillis estimate (engine w))
                 (h2 ++ [GetNanoseconds now]))).
Proof.
  intros sample_rate h1 h2 estimate Hts Hwritten Hnow Rpfi Rpt Rfw Rnow Hle Hrate
    Hmul Hadd Hsub.
  destruct (latency_nanos_exact _ _ _ _ _ Rpfi Rpt Rfw Rnow Hle Hrate Hmul Hadd Hsub)
    as (frameTimeDelta & Hdiv & Hnanos).
  split; [|intros Hsupported; rewrite updateLatency_run; rewrite Hsupported];
    [rewrite calculateCurrentOutputLatencyMillis_run|];
    cbv zeta; rewrite Hts; cbn [fst snd];
    change (result_eqb OBOE_OK OBOE_OK) with true; cbv iota;
    rewrite (i64_small _ Rpfi), (i64_small _ Rpt);
    fold h1; rewrite Hwritten, (i64_small _ Rfw); fold h2;
    rewrite Hnow, (i64_small _ Rnow);
    fold sample_rate; rewrite Hdiv, Hnanos; reflexivity.
Qed.

(** *** Restarts on several threads *)

Lemma count_pcs_set_nth (p : restart_pc -> bool) (l : list restart_pc) (i : nat)
    (pc pc' : restart_pc) :
  nth_error l i = Some pc ->
  (count_pcs p (set_nth i pc' l) + (if p pc then 1 else 0)
   = count_pcs p l + (if p pc' then 1 else 0))%nat.
Proof.
  unfold count_pcs. revert i. induction l as [|x l IH]; intros [|i] Hnth; cbn in Hnth.
  - discriminate.
  - discriminate.
  - injection Hnth as ->. cbn. destruct (p pc), (p pc'); cbn; lia.
  - specialize (IH i Hnth). cbn. destruct (p x); cbn; lia.
Qed.

Lemma quiet_count (evs : history) :
  quiet evs ->
  count_events (is_TryLock true) evs = 0%nat /\
  count_events (is_TryLock false) evs = 0%nat /\
  count_events is_Unlock evs = 0%nat /\
  count_events is_OpenStream evs = 0%nat.
Proof.
  intros Hq. repeat split;
    apply (count_events_none _ _ _ Hq); intros []; cbn; try congruence;
    destruct acquired; cbn; congruence.
Qed.

Lemma restart_step_cases (pc pc' : restart_pc) (w w' : World) :
  restart_step plat pc w = Some (pc', w') -> step_effect w pc pc' w'.
Proof.
  destruct pc; cbn [restart_step].
  - unfold bind, emit, ret. intros [= <- <-]. constructor.
  - unfold try_lock, bind, this, assign, emit, ret. cbn [engine trace].
    destruct (mRestartingLock (engine w)) eqn:Hlock; intros [= <- <-].
    + constructor. exact Hlock.
    + constructor. exact Hlock.
  - unfold bind at 1. destruct (closeOutputStream_frame w) as (evs & -> & Hq).
    unfold ret. intros [= <- <-]. constructor. exact Hq.
  - unfold bind at 1.
    destruct (createPlaybackStream_frame w) as (e' & ev & evs & -> & Hev & Hq & Hlock & _).
    unfold ret. intros [= <- <-]. constructor; assumption.
  - unfold unlock, bind, assign, emit, ret. cbn [engine trace].
    intros [= <- <-]. constructor.
  - unfold bind, emit, ret. intros [= <- <-]. constructor.
  - discriminate.
Qed.


Lemma restart_inv_step (h0 : history) (l : list restart_pc) (i : nat)
    (pc pc' : restart_pc) (w w' : World) (evs : history) :
  nth_error l i = Some pc ->
  step_effect w pc pc' w' ->
  trace w = h0 ++ evs ->
  restart_inv (mRestartingLock (engine w)) l evs ->
  exists evs',
    trace w' = h0 ++ evs' /\
    restart_inv (mRestartingLock (engine w')) (set_nth i pc' l) evs'.
Proof.
  intros Hnth Hstep Htrace [I1 I2 I3 I4 I5].
  pose proof (count_pcs_set_nth in_restart l i pc pc' Hnth) as C1.
  pose proof (count_pcs_set_nth past_try_lock l i pc pc' Hnth) as C2.
  pose proof (count_pcs_set_nth at_unlock l i pc pc' Hnth) as C3.
  destruct Hstep as [|Hlock|Hlock|new Hq|e' ev new Hev Hq Hlock| |];
    cbn [engine trace mRestartingLock set_mRestartingLock];
    rewrite Htrace, <- app_assoc; (eexists; split; [reflexivity|]);
    cbn [in_restart past_try_lock at_unlock] in C1, C2, C3;
    try (destruct (quiet_count new Hq) as (Q1 & Q2 & Q3 & Q4)).
  - constructor; rewrite ?count_events_app; cbn; lia.
  - rewrite Hlock in I1.
    constructor; rewrite ?count_events_app; cbn; lia.
  - rewrite Hlock in *.
    constructor; rewrite ?count_events_app; cbn; lia.
  - constructor; rewrite ?count_events_app, ?Q1, ?Q2, ?Q3, ?Q4; lia.
  - rewrite Hlock.
    assert (Ho : count_events is_OpenStream (ev :: new) = 1%nat).
    { unfold count_events in *. cbn. rewrite Hev. cbn. lia. }
    assert (Hl : count_events (is_TryLock true) (ev :: new) = 0%nat /\
                 count_events (is_TryLock false) (ev :: new) = 0%nat /\
                 count_events is_Unlock (ev :: new) = 0%nat).
    { unfold count_events in *. destruct ev; try discriminate Hev. cbn. lia. }
    destruct Hl as (L1 & L2 & L3).
    constructor; rewrite ?count_events_app, ?Ho, ?L1, ?L2, ?L3; lia.
  - destruct (mRestartingLock (engine w));
      constructor; rewrite ?count_events_app; cbn; lia.
  - constructor; rewrite ?count_events_app; cbn; lia.
Qed.

Lemma restart_inv_init (n : nat) : restart_inv false (repeat AtEntry n) [].
Proof.
  assert (H : forall p, p AtEntry = false -> count_pcs p (repeat AtEntry n) = 0%nat).
  { intros p Hp. unfold count_pcs. induction n as [|n IH]; cbn; [reflexivity|].
    rewrite Hp. exact IH. }
  constructor; rewrite ?H by reflexivity; cbn; lia.
Qed.

Lemma restart_inv_run (h0 : history) (schedule : list nat) (c c' : Threads)
    (evs : history) :
  run_schedule plat c schedule = Some c' ->
  trace (shared c) = h0 ++ evs ->
  restart_inv (mRestartingLock (engine (shared c))) (pcs c) evs ->
  exists evs',
    trace (shared c') = h0 ++ evs' /\
    restart_inv (mRestartingLock (engine (shared c'))) (pcs c') evs' /\
    List.length (pcs c') = List.length (pcs c).
Proof.
  revert c evs. induction schedule as [|i schedule IH]; intros c evs Hrun Htrace Hinv.
  - injection Hrun as <-. exists evs. auto.
  - cbn [run_schedule] in Hrun. unfold sched_step in Hrun.
    destruct (nth_error (pcs c) i) as [pc|] eqn:Hnth; [|discriminate].
    destruct (restart_step plat pc (shared c)) as [[pc' w']|] eqn:Hstep; [|discriminate].
    apply restart_step_cases in Hstep.
    destruct (restart_inv_step h0 _ _ _ _ _ _ _ Hnth Hstep Htrace Hinv)
      as (evs1 & Htrace1 & Hinv1).
    destruct (IH _ _ Hrun Htrace1 Hinv1) as (evs' & Htrace' & Hinv' & Hlen).
    exists evs'. split; [exact Htrace'|]. split; [exact Hinv'|].
    rewrite Hlen. cbn [pcs]. clear. revert i.
    induction (pcs c) as [|x l IHl]; intros [|i]; cbn; auto.
Qed.

Lemma count_pcs_all (p : restart_pc -> bool) (l : list restart_pc) :
  forallb has_returned l = true ->
  count_pcs p l = if p Returned then List.length l else 0%nat.
Proof.
  unfold count_pcs. induction l as [|x l IH]; cbn; [destruct (p Returned); reflexivity|].
  intros H. apply andb_prop in H as [Hx Hl]. destruct x; try discriminate Hx.
  specialize (IH Hl). destruct (p Returned); cbn; lia.
Qed.

(** *** Further properties: opening and closing *)

Lemma kept_refl (e : PlayAudioEngine) : kept e e.
Proof. repeat split. Qed.

(** [createPlaybackStream] with what it keeps. *)
Lemma createPlaybackStream_opens (w : World) :
  let opened := p_openStream plat (trace w) (playback_builder (engine w))
                  (mPlayStream (engine w)) in
  exists e' evs,
    createPlaybackStream plat w
      = Some (tt, mkWorld e'
                    (trace w ++ OpenStream (playback_builder (engine w))
                                  (mPlayStream (engine w)) (snd opened) (fst opened)
                                :: evs)) /\
    quiet evs /\
    forallb (fun ev => negb (is_stop_or_close ev)) evs = true /\
    mPlayStream e' = snd opened /\
    kept (engine w) e' /\
    (fst opened <> OBOE_OK \/ snd opened = None ->
     e' = set_mPlayStream (snd opened) (engine w) /\
     evs = [Log LOGE "Failed to create stream. Error: %s" (Some (fst opened))]) /\
    (forall s, opened = (OBOE_OK, Some s) -> mLatencyTuner e' = Some s).
Proof.
  intros opened. pose proof (createPlaybackStream_run w) as Hrun. cbv zeta in Hrun.
  fold opened in Hrun. destruct opened as [r o]. cbn [fst snd] in *.
  unfold result_eqb in Hrun.
  destruct (oboe_result_eq_dec r OBOE_OK) as [->|Hr]; [destruct o as [s|]|];
    rewrite <- ?app_assoc in Hrun; cbn [app] in Hrun;
    eexists _, _; (split; [exact Hrun|]);
    unfold quiet, reported; try destruct (result_eqb _ OBOE_OK);
    repeat split; try tauto; try congruence;
    try (match goal with H : _ \/ _ |- _ => destruct H; congruence end);
    try (intros s0 [= <-]; reflexivity).
Qed.

(** X1. The constructor initialises the tracer and then asks, once, for a
    stream with two channels, whatever the channel count was, on the
    device of [mPlaybackDeviceId], in exclusive mode, tuned for low
    latency, with the engine as its callback.  Afterwards the channel
    count is two and [mPlayStream] is what the open call stored; a tuner
    is installed for the stream when the open succeeded. *)
Theorem PlayAudioEngine_new_requests_stereo (fields : PlayAudioEngine) (h : history) :
  let b := mkBuilder (Some (mPlaybackDeviceId fields)) (Some kAudioSampleChannels)
             (Some OBOE_SHARING_MODE_EXCLUSIVE)
             (Some OBOE_PERFORMANCE_MODE_LOW_LATENCY) true in
  let opened := p_openStream plat (h ++ [TraceInitialize]) b (mPlayStream fields) in
  exists w' evs,
    PlayAudioEngine_new plat fields h = Some (tt, w') /\
    trace w' = h ++ TraceInitialize
               :: OpenStream b (mPlayStream fields) (snd opened) (fst opened) :: evs /\
    count_events is_OpenStream evs = 0%nat /\
    mSampleChannels (engine w') = kAudioSampleChannels /\
    mPlayStream (engine w') = snd opened /\
    (forall s, opened = (OBOE_OK, Some s) -> mLatencyTuner (engine w') = Some s).
Proof.
  intros b opened. unfold PlayAudioEngine_new, bind, emit, assign. cbn [engine trace].
  destruct (createPlaybackStream_opens
              (mkWorld (set_mSampleChannels kAudioSampleChannels fields)
                 (h ++ [TraceInitialize])))
    as (e' & evs & Hrun & Hq & _ & Hs & Hkept & _ & Htuner).
  rewrite Hrun. exists (mkWorld e' (trace (mkWorld (set_mSampleChannels kAudioSampleChannels fields)
                                     (h ++ [TraceInitialize])) ++
                               OpenStream b (mPlayStream fields) (snd opened) (fst opened)
                               :: evs)), evs.
  split; [reflexivity|]. cbn [engine trace]. rewrite <- app_assoc.
  split; [reflexivity|]. split; [apply (quiet_count evs Hq)|].
  destruct Hkept as (_ & Hch & _). split; [exact Hch|]. split; [exact Hs|exact Htuner].
Qed.

(** X2. An engine whose open call stored no stream: its destructor calls
    nothing and changes nothing, but [setDeviceId] dereferences the null
    [mPlayStream] and does not return, for any device id. *)
Theorem engine_without_stream (fields : PlayAudioEngine) (h : history) :
  snd (p_openStream plat (h ++ [TraceInitialize])
         (mkBuilder (Some (mPlaybackDeviceId fields)) (Some kAudioSampleChannels)
            (Some OBOE_SHARING_MODE_EXCLUSIVE)
            (Some OBOE_PERFORMANCE_MODE_LOW_LATENCY) true)
         (mPlayStream fields)) = None ->
  exists w0,
    PlayAudioEngine_new plat fields h = Some (tt, w0) /\
    mPlayStream (engine w0) = None /\
    PlayAudioEngine_delete plat w0 = Some (tt, w0) /\
    forall deviceId, setDeviceId plat deviceId w0 = None.
Proof.
  intros Hnone. unfold PlayAudioEngine_new, bind, emit, assign. cbn [engine trace].
  destruct (createPlaybackStream_opens
              (mkWorld (set_mSampleChannels kAudioSampleChannels fields)
                 (h ++ [TraceInitialize])))
    as (e' & evs & Hrun & _ & _ & Hs & _).
  rewrite Hrun. eexists. split; [reflexivity|]. cbn [engine trace] in *.
  unfold playback_builder in Hs. cbn in Hs. rewrite Hnone in Hs.
  split; [exact Hs|]. split.
  - unfold PlayAudioEngine_delete, closeOutputStream, bind, this, ret.
    cbn [engine trace]. rewrite Hs. reflexivity.
  - intros deviceId. unfold setDeviceId, bind, assign, this. cbn [engine trace].
    destruct e'. cbn in Hs. subst. reflexivity.
Qed.

(** [restartStream] with the lock free, step by step. *)
Lemma restartStream_cycle_run (w : World) :
  mRestartingLock (engine w) = false ->
  exists e' r1 r2 after r evs,
    restartStream plat w
      = Some (tt, mkWorld (set_mRestartingLock false e')
                    (trace w ++ Log LOGI "Restarting stream" None :: TryLock true
                     :: closing (mPlayStream (engine w)) r1 r2
                     ++ OpenStream (playback_builder (engine w)) (mPlayStream (engine w))
                          after r
                     :: evs ++ [Unlock])) /\
    quiet evs /\
    forallb (fun ev => negb (is_stop_or_close ev)) evs = true /\
    mPlayStream e' = after /\
    kept (set_mRestartingLock true (engine w)) e' /\
    (r <> OBOE_OK \/ after = None ->
     e' = set_mPlayStream after (set_mRestartingLock true (engine w)) /\
     evs = [Log LOGE "Failed to create stream. Error: %s" (Some r)]) /\
    (forall s, r = OBOE_OK -> after = Some s -> mLatencyTuner e' = Some s) /\
    (exists h1, p_openStream plat h1 (playback_builder (engine w)) (mPlayStream (engine w))
                = (r, after)).
Proof.
  intros Hfree. rewrite restartStream_run, Hfree.
  set (w1 := mkWorld (set_mRestartingLock true (engine w))
               (trace w ++ [Log LOGI "Restarting stream" None; TryLock true])).
  pose proof (closeOutputStream_run w1) as Hclose.
  assert (Hc : exists r1 r2,
             closeOutputStream plat w1
               = Some (tt, mkWorld (engine w1)
                             (trace w1 ++ closing (mPlayStream (engine w)) r1 r2))).
  { change (mPlayStream (engine w1)) with (mPlayStream (engine w)) in Hclose.
    destruct (mPlayStream (engine w)) as [s|].
    - cbv zeta in Hclose. rewrite <- app_assoc in Hclose. cbn [app] in Hclose.
      eexists _, _. exact Hclose.
    - exists OBOE_OK, OBOE_OK. cbn [closing]. rewrite app_nil_r. destruct w1. exact Hclose. }
  destruct Hc as (r1 & r2 & Hc). unfold bind at 1. rewrite Hc. unfold bind at 1.
  match goal with |- context [createPlaybackStream plat ?w2] =>
    destruct (createPlaybackStream_opens w2)
      as (e' & evs & Hrun & Hq & Hsc & Hs & Hkept & Hfail & Htuner)
  end.
  rewrite Hrun. unfold unlock, bind, assign, emit. cbn [engine trace] in *.
  change (playback_builder (engine w1)) with (playback_builder (engine w)) in *.
  change (mPlayStream (engine w1)) with (mPlayStream (engine w)) in *.
  change (engine w1) with (set_mRestartingLock true (engine w)) in *.
  set (opened := p_openStream plat _ (playback_builder (engine w)) (mPlayStream (engine w)))
    in *.
  exists e', r1, r2, (snd opened), (fst opened), evs. split.
  - unfold w1. cbn [trace]. rewrite <- ?app_assoc. cbn [app]. rewrite <- ?app_assoc.
    cbn [app]. reflexivity.
  - split; [exact Hq|]. split; [exact Hsc|]. split; [exact Hs|]. split; [exact Hkept|].
    split; [exact Hfail|]. split.
    + intros s Hr Hafter. apply Htuner. rewrite <- Hr, <- Hafter.
      destruct opened; reflexivity.
    + eexists. unfold opened. apply surjective_pairing.
Qed.

(** X3. [restartStream] with the lock free takes it, stops and closes the
    stream the engine holds (nothing when it holds none), then opens one,
    once, with the closed stream still in [mPlayStream], and releases the
    lock last; the stream stopped is never started again, and the lock is
    free afterwards. *)
Theorem restartStream_cycle (w : World) :
  mRestartingLock (engine w) = false ->
  exists w' r1 r2 after r evs,
    restartStream plat w = Some (tt, w') /\
    new_events w w' =
      Log LOGI "Restarting stream" None :: TryLock true
      :: closing (mPlayStream (engine w)) r1 r2
      ++ OpenStream (playback_builder (engine w)) (mPlayStream (engine w)) after r
      :: evs ++ [Unlock] /\
    count_events is_OpenStream evs = 0%nat /\
    count_events is_stop_or_close evs = 0%nat /\
    mPlayStream (engine w') = after /\
    mRestartingLock (engine w') = false /\
    mPlaybackDeviceId (engine w') = mPlaybackDeviceId (engine w).
Proof.
  intros Hfree.
  destruct (restartStream_cycle_run w Hfree)
    as (e' & r1 & r2 & after & r & evs & Hrun & Hq & Hsc & Hs & Hkept & _).
  eexists _, r1, r2, after, r, evs. split; [exact Hrun|].
  rewrite new_events_app. split; [reflexivity|].
  split; [apply (quiet_count evs Hq)|].
  split; [apply (count_events_none _ _ _ Hsc); intros ev; destruct (is_stop_or_close ev);
          cbn; congruence|].
  cbn [engine trace mPlayStream mRestartingLock mPlaybackDeviceId set_mRestartingLock].
  split; [exact Hs|]. split; [reflexivity|]. destruct Hkept as (Hid & _). exact Hid.
Qed.

(** X4. A restart whose open call fails (the device is gone) leaves the
    engine with the tuner of the stream it has just closed, and with that
    stream's sample rate, burst size and timestamp support: only
    [mPlayStream] is what the open call stored.  Nothing is started. *)
Theorem restartStream_failed_reopen (w : World) :
  mRestartingLock (engine w) = false ->
  (forall h b before, fst (p_openStream plat h b before) <> OBOE_OK) ->
  exists w' after,
    restartStream plat w = Some (tt, w') /\
    engine w' = set_mPlayStream after (engine w) /\
    mLatencyTuner (engine w') = mLatencyTuner (engine w) /\
    count_events is_RequestStart (new_events w w') = 0%nat /\
    count_events is_OpenStream (new_events w w') = 1%nat.
Proof.
  intros Hfree Hgone.
  destruct (restartStream_cycle_run w Hfree)
    as (e' & r1 & r2 & after & r & evs & Hrun & Hq & Hsc & Hs & Hkept & Hfail & _ & Hopen).
  assert (Hr : r <> OBOE_OK).
  { destruct Hopen as (h1 & Hopen). specialize (Hgone h1 (playback_builder (engine w))
                                                  (mPlayStream (engine w))).
    rewrite Hopen in Hgone. exact Hgone. }
  destruct (Hfail (or_introl Hr)) as (-> & ->).
  eexists _, after. split; [exact Hrun|]. rewrite new_events_app.
  cbn [engine]. split.
  - destruct (engine w); cbn in *. subst. reflexivity.
  - split; [reflexivity|].
    assert (Hcl : forall p, p (RequestStop 0%nat OBOE_OK) = false ->
                    (forall s0 res, p (RequestStop s0 res) = false) ->
                    (forall s0 res, p (Close s0 res) = false) ->
                    (forall l fmt res, p (Log l fmt res) = false) ->
                    count_events p (closing (mPlayStream (engine w)) r1 r2) = 0%nat).
    { intros p _ Hstop Hclose Hlog. destruct (mPlayStream (engine w)); [|reflexivity].
      unfold closing, reported, count_events.
      do 2 destruct (result_eqb _ OBOE_OK); cbn; rewrite ?Hstop, ?Hclose, ?Hlog;
        reflexivity. }
    split; rewrite !count_events_cons, count_events_app, Hcl by reflexivity; reflexivity.
Qed.

Lemma setDeviceId_run (deviceId : Z) (w : World) (s : OboeStream) :
  mPlayStream (engine w) = Some s ->
  setDeviceId plat deviceId w =
    if deviceId =? Int.i32 (p_getDeviceId plat (trace w) s)
    then Some (tt, mkWorld (set_mPlaybackDeviceId deviceId (engine w))
                     (trace w ++ [GetDeviceId s (Int.i32 (p_getDeviceId plat (trace w) s))]))
    else restartStream plat
           (mkWorld (set_mPlaybackDeviceId deviceId (engine w))
              (trace w ++ [GetDeviceId s (Int.i32 (p_getDeviceId plat (trace w) s))])).
Proof.
  intros Hs. destruct w as [e h].
  unfold setDeviceId, getDeviceId, bind, assign, this, call.
  cbn [engine trace mPlayStream set_mPlaybackDeviceId] in Hs |- *.
  rewrite Hs. unfold deref, ret.
  destruct (deviceId =? _); reflexivity.
Qed.

(** X5. [setDeviceId] with an id other than the stream's, no restart
    being in progress: the stream is stopped and closed, and the one open
    call that follows asks for the new id, with the engine's channel
    count, exclusive mode and low latency; the lock is free again when the
    call returns. *)
Theorem setDeviceId_reopens_on_device (deviceId : Z) (w : World) (s : OboeStream) :
  mPlayStream (engine w) = Some s ->
  mRestartingLock (engine w) = false ->
  deviceId <> Int.i32 (p_getDeviceId plat (trace w) s) ->
  exists w' r1 r2 after r evs,
    setDeviceId plat deviceId w = Some (tt, w') /\
    new_events w w' =
      GetDeviceId s (Int.i32 (p_getDeviceId plat (trace w) s))
      :: Log LOGI "Restarting stream" None :: TryLock true
      :: closing (Some s) r1 r2
      ++ OpenStream (mkBuilder (Some deviceId) (Some (mSampleChannels (engine w)))
                       (Some OBOE_SHARING_MODE_EXCLUSIVE)
                       (Some OBOE_PERFORMANCE_MODE_LOW_LATENCY) true)
           (Some s) after r
      :: evs ++ [Unlock] /\
    count_events is_OpenStream evs = 0%nat /\
    mPlayStream (engine w') = after /\
    mPlaybackDeviceId (engine w') = deviceId /\
    mRestartingLock (engine w') = false.
Proof.
  intros Hs Hfree Hne. rewrite (setDeviceId_run _ _ _ Hs).
  apply Z.eqb_neq in Hne. rewrite Hne.
  match goal with |- context [restartStream plat ?w1] =>
    destruct (restartStream_cycle_run w1 Hfree)
      as (e' & r1 & r2 & after & r & evs & Hrun & Hq & _ & Hafter & Hkept & _)
  end.
  cbn [engine trace mPlayStream set_mPlaybackDeviceId] in Hrun. rewrite Hs in Hrun.
  rewrite <- app_assoc in Hrun. cbn [app] in Hrun.
  eexists _, r1, r2, after, r, evs. split; [exact Hrun|].
  rewrite new_events_app. split; [reflexivity|].
  split; [apply (quiet_count evs Hq)|].
  cbn [engine mPlayStream mPlaybackDeviceId mRestartingLock set_mRestartingLock].
  split; [exact Hafter|]. destruct Hkept as (Hid & _). split; [exact Hid|reflexivity].
Qed.

(** X6. [setDeviceId] while a restart holds the lock: the id is stored,
    but the request to restart is ignored; no stream is stopped, closed
    or opened by the call, and it never waits for the lock.  An open
    call made on the fields the call leaves, as the restart that holds
    the lock makes it, asks for the id just stored. *)
Theorem setDeviceId_during_restart (deviceId : Z) (w : World) (s : OboeStream) :
  mPlayStream (engine w) = Some s ->
  mRestartingLock (engine w) = true ->
  deviceId <> Int.i32 (p_getDeviceId plat (trace w) s) ->
  setDeviceId plat deviceId w =
    Some (tt, mkWorld (set_mPlaybackDeviceId deviceId (engine w))
                (trace w ++ GetDeviceId s (Int.i32 (p_getDeviceId plat (trace w) s))
                            :: restart_ignored)) /\
  forall h,
    exists e' after r evs,
      createPlaybackStream plat (mkWorld (set_mPlaybackDeviceId deviceId (engine w)) h)
      = Some (tt, mkWorld e'
                    (h ++ OpenStream
                            (mkBuilder (Some deviceId) (Some (mSampleChannels (engine w)))
                               (Some OBOE_SHARING_MODE_EXCLUSIVE)
                               (Some OBOE_PERFORMANCE_MODE_LOW_LATENCY) true)
                            (Some s) after r
                          :: evs)).
Proof.
  intros Hs Hheld Hne. split.
  - rewrite (setDeviceId_run _ _ _ Hs).
    apply Z.eqb_neq in Hne. rewrite Hne. rewrite restartStream_run.
    cbn [engine trace mRestartingLock set_mPlaybackDeviceId]. rewrite Hheld.
    rewrite <- app_assoc. reflexivity.
  - intros h.
    destruct (createPlaybackStream_opens
                (mkWorld (set_mPlaybackDeviceId deviceId (engine w)) h))
      as (e' & evs & Hrun & _).
    cbn [engine trace] in Hrun.
    replace (playback_builder (set_mPlaybackDeviceId deviceId (engine w)))
      with (mkBuilder (Some deviceId) (Some (mSampleChannels (engine w)))
              (Some OBOE_SHARING_MODE_EXCLUSIVE)
              (Some OBOE_PERFORMANCE_MODE_LOW_LATENCY) true) in Hrun
      by (destruct (engine w); reflexivity).
    replace (mPlayStream (set_mPlaybackDeviceId deviceId (engine w))) with (Some s) in Hrun
      by (rewrite <- Hs; destruct (engine w); reflexivity).
    eexists e', _, _, evs. exact Hrun.
Qed.

Lemma closeOutputStream_closing (w : World) :
  exists r1 r2,
    closeOutputStream plat w
      = Some (tt, mkWorld (engine w) (trace w ++ closing (mPlayStream (engine w)) r1 r2)).
Proof.
  pose proof (closeOutputStream_run w) as Hclose.
  destruct (mPlayStream (engine w)) as [s|].
  - cbv zeta in Hclose. rewrite <- app_assoc in Hclose. cbn [app] in Hclose.
    eexists _, _. exact Hclose.
  - exists OBOE_OK, OBOE_OK. cbn [closing]. rewrite app_nil_r. destruct w. exact Hclose.
Qed.

Lemma filter_closing (s : OboeStream) (r1 r2 : oboe_result_t) :
  filter is_stop_or_close (closing (Some s) r1 r2) = [RequestStop s r1; Close s r2].
Proof.
  unfold closing, reported.
  destruct (result_eqb r1 OBOE_OK), (result_eqb r2 OBOE_OK); reflexivity.
Qed.

(** X7. [closeOutputStream] leaves the closed stream in [mPlayStream]: a
    second call stops and closes the same stream again. *)
Theorem closeOutputStream_twice (w : World) (s : OboeStream) :
  mPlayStream (engine w) = Some s ->
  exists w' r1 r2 r3 r4,
    bind (closeOutputStream plat) (fun _ => closeOutputStream plat) w = Some (tt, w') /\
    engine w' = engine w /\
    mPlayStream (engine w') = Some s /\
    filter is_stop_or_close (new_events w w')
      = [RequestStop s r1; Close s r2; RequestStop s r3; Close s r4].
Proof.
  intros Hs. unfold bind.
  destruct (closeOutputStream_closing w) as (r1 & r2 & ->).
  match goal with |- context [closeOutputStream plat ?w1] =>
    destruct (closeOutputStream_closing w1) as (r3 & r4 & ->)
  end.
  cbn [engine trace]. rewrite Hs.
  eexists _, r1, r2, r3, r4. split; [reflexivity|]. split; [reflexivity|].
  split; [exact Hs|].
  rewrite <- app_assoc, new_events_app, filter_app, !filter_closing. reflexivity.
Qed.

(** X8. Two disconnections: each [onError] starts a thread of its own and
    calls nothing else; the engine keeps the handle of the second thread
    only, the first handle is overwritten. *)
Theorem onError_twice (s1 s2 : OboeStream) (w : World) :
  exists w',
    bind (onError s1 OBOE_ERROR_DISCONNECTED)
      (fun _ => onError s2 OBOE_ERROR_DISCONNECTED) w = Some (tt, w') /\
    new_events w w' = [ThreadStart RestartStreamTask; ThreadStart RestartStreamTask] /\
    mStreamRestartThread (engine w') = Some (S (threads_started (trace w))) /\
    engine w' = set_mStreamRestartThread (Some (S (threads_started (trace w)))) (engine w).
Proof.
  unfold onError, new_thread, bind, assign. cbn [result_eqb engine trace].
  change (result_eqb OBOE_ERROR_DISCONNECTED OBOE_ERROR_DISCONNECTED) with true.
  cbv iota. cbn [engine trace].
  assert (Hn : threads_started (trace w ++ [ThreadStart RestartStreamTask])
               = S (threads_started (trace w))).
  { unfold threads_started. rewrite count_events_app. cbn. lia. }
  rewrite Hn. eexists. split; [reflexivity|].
  rewrite <- app_assoc. rewrite new_events_app.
  split; [reflexivity|]. split; [reflexivity|]. destruct (engine w); reflexivity.
Qed.

(** *** Restarts on several threads: the cycles *)









(** *** Further properties: threads *)

Lemma step_effect_progress (w w' : World) (pc pc' : restart_pc) :
  step_effect w pc pc' w' -> (steps_left pc' < steps_left pc)%nat.
Proof. intros []; cbn; lia. Qed.

Lemma restart_step_total (pc : restart_pc) (w : World) :
  pc <> Returned -> exists pc' w', restart_step plat pc w = Some (pc', w').
Proof.
  intros Hpc. destruct pc; cbn [restart_step]; try contradiction.
  - eexists _, _. reflexivity.
  - unfold try_lock, bind, this, assign, emit, ret. cbn [engine trace].
    destruct (mRestartingLock (engine w)); eexists _, _; reflexivity.
  - unfold bind. destruct (closeOutputStream_frame w) as (evs & -> & _).
    eexists _, _. reflexivity.
  - unfold bind.
    destruct (createPlaybackStream_frame w) as (e' & ev & evs & -> & _).
    eexists _, _. reflexivity.
  - eexists _, _. reflexivity.
  - eexists _, _. reflexivity.
Qed.

Lemma total_steps_left_set_nth (l : list restart_pc) (i : nat) (pc pc' : restart_pc) :
  nth_error l i = Some pc ->
  (total_steps_left (set_nth i pc' l) + steps_left pc
   = total_steps_left l + steps_left pc')%nat.
Proof.
  unfold total_steps_left, list_sum. revert i.
  induction l as [|x l IH]; intros [|i] Hnth; cbn in Hnth; try discriminate.
  - injection Hnth as ->. cbn [set_nth map fold_right]. lia.
  - specialize (IH i Hnth). cbn [set_nth map fold_right]. lia.
Qed.

Lemma run_schedule_steps (schedule : list nat) (c c' : Threads) :
  run_schedule plat c schedule = Some c' ->
  (total_steps_left (pcs c') + List.length schedule <= total_steps_left (pcs c))%nat.
Proof.
  revert c. induction schedule as [|i schedule IH]; intros c Hrun.
  - injection Hrun as <-. cbn. lia.
  - cbn [run_schedule] in Hrun. unfold sched_step in Hrun.
    destruct (nth_error (pcs c) i) as [pc|] eqn:Hnth; [|discriminate].
    destruct (restart_step plat pc (shared c)) as [[pc' w']|] eqn:Hstep; [|discriminate].
    apply restart_step_cases, step_effect_progress in Hstep.
    specialize (IH _ Hrun). cbn [pcs] in IH.
    pose proof (total_steps_left_set_nth _ _ _ pc' Hnth). cbn [List.length]. lia.
Qed.

(** X9. Threads running [restartStream], started with the lock free, in
    any interleaving: no thread ever waits (one that has not returned can
    always take its next step), all of them together take at most five
    steps each, and when all have returned the lock is free. *)
Theorem restart_threads_finish (w0 : World) (n : nat) (schedule : list nat)
    (c : Threads) :
  mRestartingLock (engine w0) = false ->
  run_schedule plat (mkThreads w0 (repeat AtEntry n)) schedule = Some c ->
  (List.length schedule <= 5 * n)%nat /\
  (forall i pc, nth_error (pcs c) i = Some pc -> pc <> Returned ->
                exists c', sched_step plat c i = Some c') /\
  (forallb has_returned (pcs c) = true ->
   mRestartingLock (engine (shared c)) = false).
Proof.
  intros Hfree Hrun. split; [|split].
  - pose proof (run_schedule_steps _ _ _ Hrun) as Hsteps. cbn [pcs] in Hsteps.
    assert (Hinit : total_steps_left (repeat AtEntry n) = (5 * n)%nat).
    { unfold total_steps_left, list_sum. clear Hrun Hsteps.
      induction n as [|k IH]; [reflexivity|].
      cbn [repeat map fold_right steps_left]. rewrite IH. lia. }
    lia.
  - intros i pc Hnth Hpc. unfold sched_step. rewrite Hnth.
    destruct (restart_step_total pc (shared c) Hpc) as (pc' & w' & ->).
    eexists. reflexivity.
  - intros Hall.
    destruct (restart_inv_run (trace w0) schedule _ c [] Hrun)
      as (evs' & _ & [I1 _ _ _ _] & _).
    { cbn. rewrite app_nil_r. reflexivity. }
    { cbn [shared pcs]. rewrite Hfree. apply restart_inv_init. }
    rewrite (count_pcs_all in_restart _ Hall) in I1. cbn in I1.
    destruct (mRestartingLock (engine (shared c))); [discriminate|reflexivity].
Qed.

(** *** Further properties: the data callback *)

Lemma forallb_impl (p q : event -> bool) (h : history) :
  (forall ev, p ev = true -> q ev = true) -> forallb p h = true -> forallb q h = true.
Proof.
  intros Hpq. induction h as [|ev h IH]; [reflexivity|]. cbn.
  intros H. apply andb_prop in H as [Hev Hh]. rewrite (Hpq ev Hev). exact (IH Hh).
Qed.



Lemma latency_outcome_events (s : OboeStream) (e e' : PlayAudioEngine) (evs : history) :
  latency_outcome s e e' evs ->
  forallb is_latency_event evs = true /\ forallb (callback_event s) evs = true.
Proof.
  intros []; cbn; rewrite ?Nat.eqb_refl; split; reflexivity.
Qed.

(** Lines 151-158: every call is on the stream of the callback, or on
    the tuner. *)
Lemma adjustBufferSize_events (s : OboeStream) (w w1 : World) (bufferSize : Z) :
  adjustBufferSize plat kBufferSizeAutomatic s w = Some (bufferSize, w1) ->
  exists evs,
    w1 = mkWorld (engine w) (trace w ++ evs) /\
    forallb (callback_event s) evs = true.
Proof.
  unfold adjustBufferSize, getBufferSizeInFrames, setBufferSizeInFrames. run.
  destruct (mBufferSizeSelection (engine w) =? kBufferSizeAutomatic).
  - destruct (mLatencyTuner (engine w)); run; [|discriminate].
    intros [= <- <-]. eexists. split; [reflexivity|]. cbn. rewrite Nat.eqb_refl. reflexivity.
  - branch; run; intros [= <- <-]; eexists; (split; [reflexivity|]);
      cbn; rewrite ?Nat.eqb_refl; reflexivity.
Qed.

(** Lines 153-154, the tuner being there or not. *)
Lemma adjustBufferSize_automatic (s : OboeStream) (w : World) :
  mBufferSizeSelection (engine w) = kBufferSizeAutomatic ->
  adjustBufferSize plat kBufferSizeAutomatic s w =
    match mLatencyTuner (engine w) with
    | Some tuner =>
        Some (Int.i32 (p_getBufferSizeInFrames plat (trace w) s),
              mkWorld (engine w)
                (trace w ++ [GetBufferSizeInFrames s
                               (Int.i32 (p_getBufferSizeInFrames plat (trace w) s));
                             Tune tuner]))
    | None => None
    end.
Proof.
  intros Hauto. apply Z.eqb_eq in Hauto.
  unfold adjustBufferSize, getBufferSizeInFrames. run. rewrite Hauto.
  destruct (mLatencyTuner (engine w)); run; reflexivity.
Qed.

(** Lines 174-180 and 186-192. *)
Lemma fillBuffer_tone_on (t : sample_t) (e : PlayAudioEngine) (buf : list Byte.byte)
    (numFrames : Z) (w : World) :
  mIsToneOn e = true ->
  exists buf',
    fillBuffer plat size_t_bits t e buf (mSampleChannels e) numFrames w
      = Some (buf', mkWorld (engine w) (trace w ++ renders t (mSampleChannels e) numFrames)).
Proof.
  intros Htone. unfold fillBuffer, render, renders. rewrite Htone. run.
  destruct (mSampleChannels e =? 2); run; eexists; reflexivity.
Qed.

Lemma onAudioReady_inv_more (s : OboeStream) (buf : list Byte.byte) (n : Z) (w : World)
    (r : oboe_data_callback_result_t) (buf' : list Byte.byte) (w' : World) :
  onAudioReady plat kBufferSizeAutomatic size_t_bits s buf n w = Some (r, buf', w') ->
  exists bufferSize sized underruns format filled measured,
    adjustBufferSize plat kBufferSizeAutomatic s w
      = Some (bufferSize, mkWorld (engine w) (trace w ++ sized)) /\
    forallb (callback_event s) sized = true /\
    forallb is_buffer_size_event sized = true /\
    trace w' = trace w ++ sized
               ++ [GetXRunCount s underruns;
                   TraceBeginSection n underruns bufferSize;
                   GetFormat s format]
               ++ filled ++ measured ++ [TraceEndSection] /\
    forallb is_OscRender filled = true /\
    (mIsToneOn (engine w) = true ->
     filled = renders (sample_of_format format) (mSampleChannels (engine w)) n) /\
    (mIsLatencyDetectionSupported (engine w) = false ->
     measured = [] /\ engine w' = engine w) /\
    latency_outcome s (engine w) (engine w') measured.
Proof.
  rewrite onAudioReady_run.
  destruct (adjustBufferSize plat kBufferSizeAutomatic s w) as [[bufferSize w1]|] eqn:Hsize;
    [|discriminate].
  destruct (adjustBufferSize_events _ _ _ _ Hsize) as (sized & -> & Hsized).
  destruct (adjustBufferSize_frame _ _ _ _ Hsize) as (sized' & Heq & Hsized').
  injection Heq as Heq. apply app_inv_head in Heq. subst sized'.
  cbv zeta. cbn [engine trace].
  assert (Hlatency : forall w2 w3,
            engine w2 = engine w ->
            updateLatency plat s w2 = Some (tt, w3) ->
            exists measured,
              trace w3 = trace w2 ++ measured /\
              latency_outcome s (engine w) (engine w3) measured /\
              (mIsLatencyDetectionSupported (engine w) = false ->
               measured = [] /\ engine w3 = engine w)).
  { intros w2 w3 He Hlat.
    destruct (updateLatency_outcome _ _ _ Hlat) as (measured & Htr & Hout).
    exists measured. rewrite He in Hout. split; [exact Htr|]. split; [exact Hout|].
    intros Hsup. rewrite updateLatency_run in Hlat. cbv zeta in Hlat.
    rewrite He, Hsup in Hlat. injection Hlat as <-.
    split; [|exact He].
    rewrite <- (app_nil_r (trace w2)) in Htr at 1. apply app_inv_head in Htr.
    symmetry. exact Htr. }
  match goal with |- context [fillBuffer plat size_t_bits ?t ?e ?b ?c ?m ?w0] =>
    pose proof (fillBuffer_run t e b c m w0) as Hfill;
    pose proof (fillBuffer_tone_on t e b m w0) as Htone_on
  end.
  destruct (mIsToneOn (engine w)) eqn:Htone.
  - clear Hfill. destruct (Htone_on eq_refl) as (buf1 & ->). cbn [engine trace].
    match goal with |- context [updateLatency plat s ?w2] =>
      destruct (updateLatency plat s w2) as [[[] w3]|] eqn:Hlat; [|discriminate];
      pose proof (fun He => Hlatency _ _ He Hlat) as Hmeasured;
      destruct (Hmeasured eq_refl) as (measured & Htr & Hout & Hsup)
    end.
    intros [= <- <- <-]. cbn [engine trace] in *.
    eexists _, _, _, _, (renders _ _ _), measured. split; [reflexivity|].
    split; [exact Hsized|]. split; [exact Hsized'|].
    split; [rewrite Htr; rewrite <- !app_assoc; reflexivity|].
    split; [unfold renders; destruct (_ =? 2); reflexivity|].
    split; [intros _; reflexivity|]. split; [exact Hsup|exact Hout].
  - clear Htone_on. rewrite Hfill. destruct (memset buf _) as [buf1|] eqn:Hset; [|discriminate].
    match goal with |- context [updateLatency plat s ?w2] =>
      destruct (updateLatency plat s w2) as [[[] w3]|] eqn:Hlat; [|discriminate];
      pose proof (fun He => Hlatency _ _ He Hlat) as Hmeasured;
      destruct (Hmeasured eq_refl) as (measured & Htr & Hout & Hsup)
    end.
    intros [= <- <- <-]. cbn [engine trace] in *.
    eexists _, _, _, _, [], measured. split; [reflexivity|].
    split; [exact Hsized|]. split; [exact Hsized'|].
    split; [rewrite Htr; rewrite <- !app_assoc; reflexivity|].
    split; [reflexivity|]. split; [discriminate|]. split; [exact Hsup|exact Hout].
Qed.

Lemma onAudioReady_effect (s : OboeStream) (buf : list Byte.byte) (n : Z) (w : World)
    (r : oboe_data_callback_result_t) (buf' : list Byte.byte) (w' : World) :
  onAudioReady plat kBufferSizeAutomatic size_t_bits s buf n w = Some (r, buf', w') ->
  exists latencyMillis evs,
    engine w' = set_mCurrentOutputLatencyMillis latencyMillis (engine w) /\
    trace w' = trace w ++ evs /\
    forallb (callback_event s) evs = true.
Proof.
  intros Hrun.
  destruct (onAudioReady_inv_more _ _ _ _ _ _ _ Hrun)
    as (bufferSize & sized & underruns & format & filled & measured
        & _ & Hsized & _ & Htrace & Hfilled & _ & _ & Hout).
  assert (Hall : forallb (callback_event s)
                   (sized ++ [GetXRunCount s underruns;
                              TraceBeginSection n underruns bufferSize;
                              GetFormat s format]
                    ++ filled ++ measured ++ [TraceEndSection]) = true).
  { rewrite !forallb_app. rewrite Hsized.
    rewrite (forallb_impl is_OscRender (callback_event s) filled)
      by (try exact Hfilled; intros []; cbn; congruence).
    destruct (latency_outcome_events _ _ _ _ Hout) as (_ & ->).
    cbn. rewrite Nat.eqb_refl. reflexivity. }
  assert (He : exists latencyMillis,
            engine w' = set_mCurrentOutputLatencyMillis latencyMillis (engine w)).
  { destruct Hout as [_ ->|? ? ? _ ->|? ? ? ? lat ->].
    - exists (mCurrentOutputLatencyMillis (engine w)). destruct (engine w); reflexivity.
    - exists (mCurrentOutputLatencyMillis (engine w)). destruct (engine w); reflexivity.
    - exists lat. reflexivity. }
  destruct He as (lat & He). exists lat. eexists. split; [exact He|].
  split; [exact Htrace|exact Hall].
Qed.

(** X10. Whatever a data callback does, it changes no field of the engine
    but the cached latency, and it calls only on the stream it was given,
    the tuner, the oscillators, the clock, the tracer and the error log:
    it never opens, starts, stops or closes a stream, never touches the
    restart lock and never starts a thread. *)
Theorem onAudioReady_touches_only_its_stream (s : OboeStream) (buf : list Byte.byte)
    (n : Z) (w : World) (r : oboe_data_callback_result_t) (buf' : list Byte.byte)
    (w' : World) :
  onAudioReady plat kBufferSizeAutomatic size_t_bits s buf n w = Some (r, buf', w') ->
  (exists latencyMillis,
     engine w' = set_mCurrentOutputLatencyMillis latencyMillis (engine w)) /\
  forallb (callback_event s) (new_events w w') = true /\
  count_events is_restart_event (new_events w w') = 0%nat /\
  count_events is_stop_or_close (new_events w w') = 0%nat /\
  count_events is_RequestStart (new_events w w') = 0%nat /\
  count_events is_ThreadStart (new_events w w') = 0%nat.
Proof.
  intros Hrun.
  destruct (onAudioReady_effect _ _ _ _ _ _ _ Hrun) as (lat & evs & He & Htrace & Hall).
  rewrite (new_events_eq _ _ _ Htrace).
  split; [exists lat; exact He|]. split; [exact Hall|].
  repeat split; apply (count_events_none _ _ _ Hall);
    intros [] Hev; cbn in Hev |- *; congruence.
Qed.


(** X12. With the buffer size left to the tuner, a callback on an engine
    that has no tuner dereferences null and does not return.  With a
    tuner, the callback calls it once, requests no buffer size itself,
    and goes on with the buffer size it read before the tuner ran. *)
Theorem onAudioReady_automatic (s : OboeStream) (buf : list Byte.byte) (n : Z)
    (w : World) :
  mBufferSizeSelection (engine w) = kBufferSizeAutomatic ->
  match mLatencyTuner (engine w) with
  | None => onAudioReady plat kBufferSizeAutomatic size_t_bits s buf n w = None
  | Some tuner =>
      forall r buf' w',
        onAudioReady plat kBufferSizeAutomatic size_t_bits s buf n w = Some (r, buf', w') ->
        exists underruns rest,
          new_events w w' =
            GetBufferSizeInFrames s (Int.i32 (p_getBufferSizeInFrames plat (trace w) s))
            :: Tune tuner :: GetXRunCount s underruns
            :: TraceBeginSection n underruns
                 (Int.i32 (p_getBufferSizeInFrames plat (trace w) s))
            :: rest /\
          count_events is_SetBufferSizeInFrames (new_events w w') = 0%nat /\
          count_events is_Tune (new_events w w') = 1%nat
  end.
Proof.
  intros Hauto. pose proof (adjustBufferSize_automatic s w Hauto) as Hadj.
  destruct (mLatencyTuner (engine w)) as [tuner|].
  - intros r buf' w' Hrun.
    destruct (onAudioReady_inv_more _ _ _ _ _ _ _ Hrun)
      as (bufferSize & sized & underruns & format & filled & measured
          & Hsize & _ & _ & Htrace & Hfilled & _ & _ & Hout).
    rewrite Hadj in Hsize. injection Hsize as <- Hsized.
    apply app_inv_head in Hsized. subst sized.
    rewrite (new_events_eq _ _ _ Htrace).
    exists underruns, (GetFormat s format :: filled ++ measured ++ [TraceEndSection]).
    split; [reflexivity|].
    destruct (latency_outcome_events _ _ _ _ Hout) as (Hl & _).
    assert (Hrest : forall p, (forall ev, is_OscRender ev = true -> p ev = false) ->
                      (forall ev, is_latency_event ev = true -> p ev = false) ->
                      p TraceEndSection = false ->
                      count_events p (filled ++ measured ++ [TraceEndSection]) = 0%nat).
    { intros p H1 H2 H3. rewrite !count_events_app.
      rewrite (count_events_none _ _ _ Hfilled H1), (count_events_none _ _ _ Hl H2).
      unfold count_events. cbn. rewrite H3. reflexivity. }
    split.
    + cbn [app]. rewrite !count_events_cons. cbn [is_SetBufferSizeInFrames].
      rewrite Hrest; [reflexivity| | |reflexivity]; intros []; cbn; congruence.
    + cbn [app]. rewrite !count_events_cons. cbn [is_Tune].
      rewrite Hrest; [reflexivity| | |reflexivity]; intros []; cbn; congruence.
  - rewrite onAudioReady_run, Hadj. reflexivity.
Qed.

(** X13. On a stream without timestamps ([mIsLatencyDetectionSupported]
    false) the callback asks for no timestamp, no frame count and no
    time, logs nothing, and leaves every field of the engine as it was. *)
Theorem onAudioReady_unsupported (s : OboeStream) (buf : list Byte.byte) (n : Z)
    (w : World) (r : oboe_data_callback_result_t) (buf' : list Byte.byte) (w' : World) :
  mIsLatencyDetectionSupported (engine w) = false ->
  onAudioReady plat kBufferSizeAutomatic size_t_bits s buf n w = Some (r, buf', w') ->
  engine w' = engine w /\
  count_events is_latency_event (new_events w w') = 0%nat.
Proof.
  intros Hsup Hrun.
  destruct (onAudioReady_inv_more _ _ _ _ _ _ _ Hrun)
    as (bufferSize & sized & underruns & format & filled & measured
        & _ & _ & Hsized & Htrace & Hfilled & _ & Hnone & _).
  destruct (Hnone Hsup) as (-> & He). split; [exact He|].
  rewrite (new_events_eq _ _ _ Htrace). rewrite !count_events_app.
  rewrite (count_events_none _ _ _ Hsized) by (intros []; cbn; congruence).
  rewrite (count_events_none _ _ _ Hfilled) by (intros []; cbn; congruence).
  reflexivity.
Qed.

(** X14. A callback for no frames, the tone off: the buffer, of any
    length, comes back as it was. *)
Theorem onAudioReady_no_frames (s : OboeStream) (buf : list Byte.byte) (w : World) :
  mIsToneOn (engine w) = false ->
  (mBufferSizeSelection (engine w) = kBufferSizeAutomatic ->
   mLatencyTuner (engine w) <> None) ->
  (mIsLatencyDetectionSupported (engine w) = true -> mSampleRate (engine w) <> 0) ->
  exists w',
    onAudioReady plat kBufferSizeAutomatic size_t_bits s buf 0 w
      = Some (OBOE_CALLBACK_RESULT_CONTINUE, buf, w').
Proof.
  intros Htone Htuner Hrate.
  assert (Hzero : forall t, memset_size size_t_bits t (mSampleChannels (engine w)) 0 = 0).
  { intros t. unfold memset_size, Int.umul, Int.to_unsigned.
    rewrite Zmod_0_l, Z.mul_0_r. apply Zmod_0_l. }
  destruct (onAudioReady_returns s buf 0 w) as (buf' & w' & Hrun).
  { split; [exact Htuner|]. split; [intros _ t w1 _; rewrite Hzero; lia|].
    intros Hsup _. exact (Hrate Hsup). }
  destruct (onAudioReady_inv _ _ _ _ _ _ _ Hrun)
    as (bufferSize & sized & underruns & format & filled & measured
        & _ & _ & _ & _ & _ & Hset & _).
  destruct (Hset Htone) as (_ & Hmem). rewrite Hzero in Hmem.
  unfold memset in Hmem. cbn in Hmem.
  destruct (0 <=? Z.of_nat (List.length buf)); [|discriminate].
  injection Hmem as <-. exists w'. exact Hrun.
Qed.

(** *** Further properties: the estimate for a frame not yet written *)

(** Lines 242-252 when the frame of the timestamp lies after the write
    index: [/] on a negative [int64_t] rounds towards zero. *)
Lemma latency_nanos_ahead (presented_frame_index presented_time frames_written
    sample_rate now : Z) :
  Int.in_range 64 presented_frame_index ->
  Int.in_range 64 presented_time ->
  Int.in_range 64 frames_written ->
  Int.in_range 64 now ->
  frames_written < presented_frame_index ->
  0 < sample_rate ->
  (presented_frame_index - frames_written) * 1000000000 <= Int.max64 ->
  Int.min64 <= presented_time
               - (presented_frame_index - frames_written) * 1000000000 / sample_rate ->
  Int.in_range 64
    (presented_time
     - (presented_frame_index - frames_written) * 1000000000 / sample_rate - now) ->
  exists frameTimeDelta,
    Int.div64 (Int.mul64 (Int.sub64 frames_written presented_frame_index)
                 OBOE_NANOS_PER_SECOND) sample_rate = Some frameTimeDelta /\
    Int.sub64 (Int.add64 presented_time frameTimeDelta) now
      = presented_time
        - (presented_frame_index - frames_written) * 1000000000 / sample_rate - now.
Proof.
  intros Rpfi Rpt Rfw Rnow Hlt Hrate Hmul Hadd Hsub.
  unfold Int.in_range, Int.max64, Int.min64 in *.
  cbn in Rpfi, Rpt, Rfw, Rnow, Hsub, Hmul, Hadd.
  assert (Hdelta : Int.sub64 frames_written presented_frame_index
                   = frames_written - presented_frame_index).
  { apply i64_small. unfold Int.in_range. cbn. lia. }
  assert (Hprod : Int.mul64 (frames_written - presented_frame_index) OBOE_NANOS_PER_SECOND
                  = - ((presented_frame_index - frames_written) * 1000000000)).
  { unfold Int.mul64, OBOE_NANOS_PER_SECOND.
    replace ((frames_written - presented_frame_index) * 1000000000)
      with (- ((presented_frame_index - frames_written) * 1000000000)) by lia.
    apply i64_small. unfold Int.in_range. cbn. lia. }
  pose proof (Z.div_pos ((presented_frame_index - frames_written) * 1000000000)
                sample_rate ltac:(lia) Hrate) as Hq0.
  pose proof (Z.div_le_upper_bound ((presented_frame_index - frames_written) * 1000000000)
                sample_rate ((presented_frame_index - frames_written) * 1000000000)
                Hrate ltac:(nia)) as Hq1.
  unfold Int.div64.
  destruct (Z.eqb_spec sample_rate 0) as [E|_]; [lia|].
  rewrite Hdelta, Hprod.
  rewrite Z.quot_opp_l by lia. rewrite Z.quot_div_nonneg by lia.
  rewrite (i64_small (- _)) by (unfold Int.in_range; cbn; lia).
  eexists. split; [reflexivity|].
  unfold Int.add64, Int.sub64.
  rewrite (i64_small (presented_time + _)) by (unfold Int.in_range; cbn; lia).
  rewrite i64_small by (unfold Int.in_range; cbn; lia). lia.
Qed.

(** X15. When the timestamp is of a frame after the write index (the
    frame delta is negative), the division of line 245 rounds towards
    zero: the latency is
    [presented_time - (index - written) * 1e9 / rate - now] nanoseconds
    with [/] on operands that are not negative, which is one nanosecond
    above the estimate with a rounded-down quotient whenever the rate
    does not divide the product. *)
Theorem latency_estimate_frame_ahead (s : OboeStream) (w : World)
    (presented_frame_index presented_time frames_written now : Z) :
  let sample_rate := mSampleRate (engine w) in
  let h1 := trace w ++ [GetTimestamp s true OBOE_OK presented_frame_index presented_time] in
  let h2 := h1 ++ [GetFramesWritten s frames_written] in
  let nanos := presented_time
               - (presented_frame_index - frames_written) * 1000000000 / sample_rate
               - now in
  p_getTimestamp plat (trace w) s true = (OBOE_OK, presented_frame_index, presented_time) ->
  p_getFramesWritten plat h1 s = frames_written ->
  p_getNanoseconds plat h2 = now ->
  Int.in_range 64 presented_frame_index ->
  Int.in_range 64 presented_time ->
  Int.in_range 64 frames_written ->
  Int.in_range 64 now ->
  frames_written < presented_frame_index ->
  0 < sample_rate ->
  (presented_frame_index - frames_written) * 1000000000 <= Int.max64 ->
  Int.min64 <= presented_time
               - (presented_frame_index - frames_written) * 1000000000 / sample_rate ->
  Int.in_range 64 nanos ->
  calculateCurrentOutputLatencyMillis plat s w =
    Some ((OBOE_OK,
           Some (double_div (double_of_int64 nanos) (double_of_int64 kNanosPerMillisecond))),
          mkWorld (engine w) (h2 ++ [GetNanoseconds now])) /\
  (((presented_frame_index - frames_written) * 1000000000) mod sample_rate <> 0 ->
   nanos = latency_estimate_nanos presented_frame_index presented_time frames_written
             sample_rate now + 1).
Proof.
  intros sample_rate h1 h2 nanos Hts Hwritten Hnow Rpfi Rpt Rfw Rnow Hlt Hrate
    Hmul Hadd Hsub.
  destruct (latency_nanos_ahead _ _ _ _ _ Rpfi Rpt Rfw Rnow Hlt Hrate Hmul Hadd Hsub)
    as (frameTimeDelta & Hdiv & Hnanos).
  split.
  - rewrite calculateCurrentOutputLatencyMillis_run.
    cbv zeta; rewrite Hts; cbn [fst snd];
    change (result_eqb OBOE_OK OBOE_OK) with true; cbv iota;
    rewrite (i64_small _ Rpfi), (i64_small _ Rpt);
    fold h1; rewrite Hwritten, (i64_small _ Rfw); fold h2;
    rewrite Hnow, (i64_small _ Rnow);
    fold sample_rate; rewrite Hdiv, Hnanos; reflexivity.
  - intros Hmod. unfold nanos, latency_estimate_nanos. cbv zeta.
    replace ((frames_written - presented_frame_index) * 1000000000)
      with (- ((presented_frame_index - frames_written) * 1000000000)) by lia.
    rewrite Z.div_opp_l_nz by lia. lia.
Qed.

(** *** Further properties: any sequence of calls *)









End Properties.

(** ** The theorems on the platforms above *)

Lemma running_engine_constructed :
  exists h,
    PlayAudioEngine_new working_platform fresh_engine [] = Some (tt, mkWorld running_engine h).
Proof. eexists. vm_compute. reflexivity. Qed.

Lemma fixed_size_world_ready :
  callback_ready working_platform 0 64 1%nat buffer16 2 fixed_size_world.
Proof.
  split; [|split].
  - intros Hauto. discriminate Hauto.
  - intros _ t w1 Htype. vm_compute in Htype. injection Htype as <- _.
    vm_compute. discriminate.
  - intros _ _. discriminate.
Defined.

(** C1, on the working device: 480 frames ahead at 48 kHz are
    10,000,000 ns, and the latency 10 ms. *)
Lemma latency_estimate_exact_witness :
  calculateCurrentOutputLatencyMillis working_platform 1%nat running_world
    = Some ((OBOE_OK,
             Some (latency_estimate_millis 480 5000000000 960 48000 5000000000)),
            mkWorld running_engine
              [GetTimestamp 1%nat true OBOE_OK 480 5000000000;
               GetFramesWritten 1%nat 960;
               GetNanoseconds 5000000000]) /\
  (960 - 480) * OBOE_NANOS_PER_SECOND / 48000 = 10000000 /\
  latency_estimate_millis 480 5000000000 960 48000 5000000000
    = S754_finite false 5629499534213120 (-49).
Proof.
  split; [|split; reflexivity].
  apply (latency_estimate_exact working_platform 1%nat running_world
           480 5000000000 960 5000000000);
    try reflexivity; unfold Int.in_range, Int.max64; cbn; lia.
Defined.

(** C1 as the spec has it fails once [delta_frames * 1e9] leaves
    [int64_t]: 10^10 frames after frame 0, at 48 kHz, the code stores a
    negative latency where the estimate is positive. *)
Lemma latency_estimate_overflows :
  0 <= 10000000000 /\ 0 < mSampleRate running_engine /\
  exists latency w',
    calculateCurrentOutputLatencyMillis long_playing_platform 1%nat running_world
      = Some ((OBOE_OK, Some latency), w') /\
    latency = S754_finite true 5904702075889345 (-25) /\
    latency_estimate_millis 0 0 10000000000 48000 0
      = S754_finite false 6990506666666655 (-25) /\
    latency <> latency_estimate_millis 0 0 10000000000 48000 0.
Proof.
  split; [lia|]. split; [reflexivity|].
  eexists _, _. split; [vm_compute; reflexivity|].
  split; [reflexivity|]. split; [vm_compute; reflexivity|].
  vm_compute. discriminate.
Qed.

(** C2, on a device that refuses to start: the failure is logged and the
    stream stays installed. *)
Lemma createPlaybackStream_failure_witness :
  exists w',
    createPlaybackStream start_fails_platform (mkWorld fresh_engine []) = Some (tt, w') /\
    In (Log LOGE "Error starting stream. %s" (Some OBOE_ERROR_INTERNAL))
       (new_events (mkWorld fresh_engine []) w') /\
    mPlayStream (engine w') = Some 1%nat.
Proof.
  destruct (createPlaybackStream_failure start_fails_platform (mkWorld fresh_engine []))
    as (w' & Hrun & _ & _ & Hstart).
  exists w'. split; [exact Hrun|].
  apply (Hstart 1%nat OBOE_ERROR_INTERNAL); [reflexivity| |discriminate].
  vm_compute in Hrun. injection Hrun as <-. vm_compute. tauto.
Defined.

(** C2 as the spec has it fails: the request to start failed, and the
    engine still holds the stream. *)
Lemma createPlaybackStream_failed_start_keeps_stream :
  exists w',
    createPlaybackStream start_fails_platform (mkWorld fresh_engine []) = Some (tt, w') /\
    In (RequestStart 1%nat OBOE_ERROR_INTERNAL) (trace w') /\
    mPlayStream (engine w') = Some 1%nat /\
    mPlayStream (engine w') <> None.
Proof.
  eexists. split; [vm_compute; reflexivity|].
  split; [cbn; tauto|]. split; [reflexivity|discriminate].
Qed.



(** C4, on the working device, which keeps its buffer at 192 frames: two
    bursts are requested, once, and 192 is what the callback goes on with. *)
Lemma onAudioReady_fixed_buffer_size_witness :
  exists buf' w' rest,
    onAudioReady working_platform 0 64 1%nat buffer16 2 fixed_size_world
      = Some (OBOE_CALLBACK_RESULT_CONTINUE, buf', w') /\
    new_events fixed_size_world w' =
      GetBufferSizeInFrames 1%nat 192 :: SetBufferSizeInFrames 1%nat 384 OBOE_OK
      :: GetBufferSizeInFrames 1%nat 192 :: GetXRunCount 1%nat 0
      :: TraceBeginSection 2 0 192 :: rest /\
    count_events is_SetBufferSizeInFrames (new_events fixed_size_world w') = 1%nat.
Proof.
  destruct (onAudioReady_fixed_buffer_size working_platform 0 64 1%nat buffer16 2
              fixed_size_world) as (_ & Hready & Hany).
  { vm_compute. discriminate. }
  destruct (Hready fixed_size_world_ready) as (buf' & w' & Hrun).
  destruct (Hany _ _ _ Hrun) as (underruns & rest & Hcase).
  change (exists answer b1,
            b1 = 192 /\
            new_events fixed_size_world w' =
              GetBufferSizeInFrames 1%nat 192 :: SetBufferSizeInFrames 1%nat 384 answer
              :: GetBufferSizeInFrames 1%nat b1 :: GetXRunCount 1%nat underruns
              :: TraceBeginSection 2 underruns b1 :: rest /\
            count_events is_SetBufferSizeInFrames (new_events fixed_size_world w') = 1%nat)
    in Hcase.
  destruct Hcase as (answer & b1 & -> & Hevs & Hcount).
  exists buf', w', rest. split; [exact Hrun|]. split; [|exact Hcount].
  rewrite Hevs. vm_compute in Hrun. injection Hrun as <- <-.
  vm_compute in Hevs. injection Hevs as <- <- _. reflexivity.
Defined.

(** C4 as the spec has it fails once [M * B] leaves [int32_t]: with
    65536 bursts of 65536 frames the product is 2^32, the buffer holds
    192 frames, and the one request the callback makes is for 0 frames. *)
Lemma onAudioReady_fixed_buffer_size_wraps :
  mBufferSizeSelection (engine wide_buffer_world)
  * mFramesPerBurst (engine wide_buffer_world) = 4294967296 /\
  exists buf' w',
    onAudioReady working_platform 0 64 1%nat buffer16 2 wide_buffer_world
      = Some (OBOE_CALLBACK_RESULT_CONTINUE, buf', w') /\
    firstn 3 (new_events wide_buffer_world w')
      = [GetBufferSizeInFrames 1%nat 192; SetBufferSizeInFrames 1%nat 0 OBOE_OK;
         GetBufferSizeInFrames 1%nat 192] /\
    filter is_SetBufferSizeInFrames (new_events wide_buffer_world w')
      = [SetBufferSizeInFrames 1%nat 0 OBOE_OK].
Proof.
  split; [reflexivity|].
  eexists _, _. split; [vm_compute; reflexivity|]. split; reflexivity.
Qed.



(** C6, on the working device, whose stream plays on device 7. *)
Lemma setDeviceId_restarts_iff_changed_witness :
  (exists w',
     setDeviceId working_platform 7 running_world = Some (tt, w') /\
     mPlaybackDeviceId (engine w') = 7 /\
     ~ In (Log LOGI "Restarting stream" None) (new_events running_world w')) /\
  (exists w',
     setDeviceId working_platform 9 running_world = Some (tt, w') /\
     mPlaybackDeviceId (engine w') = 9 /\
     In (Log LOGI "Restarting stream" None) (new_events running_world w')).
Proof.
  split.
  - destruct (setDeviceId_restarts_iff_changed working_platform 7 running_world 1%nat
                eq_refl) as (_ & w' & Hrun & Hid & Hiff).
    exists w'. split; [exact Hrun|]. split; [exact Hid|].
    intros Hin. apply Hiff in Hin. apply Hin. reflexivity.
  - destruct (setDeviceId_restarts_iff_changed working_platform 9 running_world 1%nat
                eq_refl) as (_ & w' & Hrun & Hid & Hiff).
    exists w'. split; [exact Hrun|]. split; [exact Hid|].
    apply Hiff. vm_compute. discriminate.
Defined.

(** C8, on the working device. *)
Lemma createPlaybackStream_success_steps_witness :
  exists w',
    createPlaybackStream working_platform (mkWorld fresh_engine []) = Some (tt, w') /\
    start_then_probe (new_events (mkWorld fresh_engine []) w') = true /\
    mSampleRate (engine w') = 48000 /\
    mFramesPerBurst (engine w') = 192.
Proof.
  destruct (createPlaybackStream_success_steps working_platform (mkWorld fresh_engine [])
              1%nat eq_refl)
    as (w' & rate & burst & rset & started & probed & frame & time
        & Hrun & Hevs & _ & Hrate & Hburst & _ & Horder & _).
  exists w'. split; [exact Hrun|]. split; [exact Horder|].
  vm_compute in Hrun. injection Hrun as <-. split; reflexivity.
Defined.

(** C8 as the spec has it fails: the open succeeded, and no timestamp
    query comes before the request to start. *)
Lemma createPlaybackStream_starts_before_probing :
  exists w',
    createPlaybackStream working_platform (mkWorld fresh_engine []) = Some (tt, w') /\
    mPlayStream (engine w') = Some 1%nat /\
    In (RequestStart 1%nat OBOE_OK) (trace w') /\
    probe_then_start (trace w') = false /\
    start_then_probe (trace w') = true.
Proof.
  eexists. split; [vm_compute; reflexivity|].
  split; [reflexivity|]. split; [cbn; tauto|]. split; reflexivity.
Qed.

(** C9, on the working device: two stereo frames of float samples in a
    buffer of 16 bytes. *)
Lemma onAudioReady_silence_witness :
  exists w',
    onAudioReady working_platform 0 64 1%nat buffer16 2 running_world
      = Some (OBOE_CALLBACK_RESULT_CONTINUE, repeat Byte.x00 16, w') /\
    count_events is_OscRender (new_events running_world w') = 0%nat.
Proof.
  destruct (onAudioReady_silence working_platform 0 64 1%nat sample_float buffer16 2
              running_world) as (w' & Hrun & Hnone & _).
  - reflexivity.
  - intros h. reflexivity.
  - lia.
  - cbn. lia.
  - vm_compute. discriminate.
  - vm_compute. reflexivity.
  - intros _. discriminate.
  - intros _. discriminate.
  - exists w'. split; [exact Hrun|exact Hnone].
Defined.

(** C10: a disconnection starts the restart thread, a timeout nothing. *)
Lemma onError_restarts_on_disconnect_only_witness :
  (exists w',
     onError 1%nat OBOE_ERROR_DISCONNECTED running_world = Some (tt, w') /\
     new_events running_world w' = [ThreadStart RestartStreamTask]) /\
  onError 1%nat OBOE_ERROR_TIMEOUT running_world = Some (tt, running_world).
Proof.
  split.
  - destruct (onError_restarts_on_disconnect_only 1%nat OBOE_ERROR_DISCONNECTED
                running_world) as (w' & Hrun & _ & Hyes & _).
    exists w'. split; [exact Hrun|]. apply Hyes. reflexivity.
  - destruct (onError_restarts_on_disconnect_only 1%nat OBOE_ERROR_TIMEOUT
                running_world) as (w' & Hrun & _ & _ & Hno).
    rewrite Hrun. rewrite (Hno ltac:(discriminate)). reflexivity.
Defined.

(** ** The further properties on the platforms above *)

(** X2, where no stream can be opened. *)
Lemma engine_without_stream_witness :
  exists w0,
    PlayAudioEngine_new open_fails_platform fresh_engine [] = Some (tt, w0) /\
    mPlayStream (engine w0) = None /\
    PlayAudioEngine_delete open_fails_platform w0 = Some (tt, w0) /\
    setDeviceId open_fails_platform 7 w0 = None.
Proof.
  destruct (engine_without_stream open_fails_platform fresh_engine [] eq_refl)
    as (w0 & Hnew & Hnone & Hdelete & Hset).
  exists w0. split; [exact Hnew|]. split; [exact Hnone|].
  split; [exact Hdelete|apply Hset].
Defined.

(** X3, on the working device. *)
Lemma restartStream_cycle_witness :
  exists w',
    restartStream working_platform running_world = Some (tt, w') /\
    mPlayStream (engine w') = Some 1%nat /\
    mRestartingLock (engine w') = false /\
    mPlaybackDeviceId (engine w') = 0.
Proof.
  destruct (restartStream_cycle working_platform running_world eq_refl)
    as (w' & r1 & r2 & after & r & evs & Hrun & _ & _ & _ & Hstream & Hfree & Hid).
  exists w'. split; [exact Hrun|]. split; [|split; [exact Hfree|exact Hid]].
  rewrite Hstream. vm_compute in Hrun. injection Hrun as <-.
  rewrite <- Hstream. reflexivity.
Defined.

(** X4: the running engine, its device gone. *)
Lemma restartStream_failed_reopen_witness :
  exists w',
    restartStream open_fails_platform running_world = Some (tt, w') /\
    mLatencyTuner (engine w') = Some 1%nat /\
    count_events is_RequestStart (new_events running_world w') = 0%nat.
Proof.
  destruct (restartStream_failed_reopen open_fails_platform running_world eq_refl)
    as (w' & after & Hrun & _ & Htuner & Hstart & _).
  - intros h b before. cbn. discriminate.
  - exists w'. split; [exact Hrun|]. split; [exact Htuner|exact Hstart].
Defined.

(** X5: the running engine, on device 7, sent to device 9. *)
Lemma setDeviceId_reopens_on_device_witness :
  exists w',
    setDeviceId working_platform 9 running_world = Some (tt, w') /\
    mPlaybackDeviceId (engine w') = 9 /\
    mRestartingLock (engine w') = false.
Proof.
  destruct (setDeviceId_reopens_on_device working_platform 9 running_world 1%nat
              eq_refl eq_refl)
    as (w' & r1 & r2 & after & r & evs & Hrun & _ & _ & _ & Hid & Hfree).
  - vm_compute. discriminate.
  - exists w'. split; [exact Hrun|]. split; [exact Hid|exact Hfree].
Defined.

(** X6: the same call while a restart holds the lock. *)
Lemma setDeviceId_during_restart_witness :
  setDeviceId working_platform 9 restarting_world =
    Some (tt, mkWorld (set_mPlaybackDeviceId 9 (engine restarting_world))
                (GetDeviceId 1%nat 7 :: restart_ignored)).
Proof.
  apply (setDeviceId_during_restart working_platform 9 restarting_world 1%nat
           eq_refl eq_refl).
  vm_compute. discriminate.
Defined.

(** X7, on the working device. *)
Lemma closeOutputStream_twice_witness :
  exists w',
    bind (closeOutputStream working_platform)
      (fun _ => closeOutputStream working_platform) running_world = Some (tt, w') /\
    engine w' = running_engine /\
    List.length (filter is_stop_or_close (new_events running_world w')) = 4%nat.
Proof.
  destruct (closeOutputStream_twice working_platform running_world 1%nat eq_refl)
    as (w' & r1 & r2 & r3 & r4 & Hrun & He & _ & Hcalls).
  exists w'. split; [exact Hrun|]. split; [exact He|].
  rewrite Hcalls. reflexivity.
Defined.

(** X9: two requests to restart, interleaved. *)
Lemma restart_threads_finish_witness :
  exists c,
    run_schedule working_platform (mkThreads running_world [AtEntry; AtEntry])
      overlapping_schedule = Some c /\
    (List.length overlapping_schedule <= 5 * 2)%nat /\
    mRestartingLock (engine (shared c)) = false.
Proof.
  destruct (run_schedule working_platform (mkThreads running_world [AtEntry; AtEntry])
              overlapping_schedule) as [c|] eqn:Hrun.
  - exists c. split; [reflexivity|].
    destruct (restart_threads_finish working_platform running_world 2
                overlapping_schedule c eq_refl Hrun) as (Hlen & _ & Hfree).
    split; [exact Hlen|]. apply Hfree.
    vm_compute in Hrun. injection Hrun as <-. reflexivity.
  - vm_compute in Hrun. discriminate Hrun.
Defined.

(** X10: a callback for two frames on the running engine. *)
Lemma onAudioReady_touches_only_its_stream_witness :
  exists r buf' w',
    onAudioReady working_platform 0 64 1%nat buffer16 2 running_world
      = Some (r, buf', w') /\
    forallb (callback_event 1%nat) (new_events running_world w') = true /\
    count_events is_restart_event (new_events running_world w') = 0%nat.
Proof.
  destruct (onAudioReady working_platform 0 64 1%nat buffer16 2 running_world)
    as [[[r buf'] w']|] eqn:Hrun.
  - exists r, buf', w'. split; [reflexivity|].
    destruct (onAudioReady_touches_only_its_stream working_platform 0 64 1%nat buffer16 2
                running_world r buf' w' Hrun) as (_ & Hall & Hnone & _).
    split; [exact Hall|exact Hnone].
  - vm_compute in Hrun. discriminate Hrun.
Defined.


(** X12: the running engine, which has a tuner, and an engine that has
    none. *)
Lemma onAudioReady_automatic_witness :
  (exists r buf' w' rest,
     onAudioReady working_platform 0 64 1%nat buffer16 2 running_world
       = Some (r, buf', w') /\
     new_events running_world w' =
       GetBufferSizeInFrames 1%nat 192 :: Tune 1%nat :: GetXRunCount 1%nat 0
       :: TraceBeginSection 2 0 192 :: rest) /\
  onAudioReady working_platform 0 64 1%nat buffer16 2 (mkWorld fresh_engine []) = None.
Proof.
  split.
  - destruct (onAudioReady working_platform 0 64 1%nat buffer16 2 running_world)
      as [[[r buf'] w']|] eqn:Hrun.
    + destruct (onAudioReady_automatic working_platform 0 64 1%nat buffer16 2
                  running_world eq_refl r buf' w' Hrun) as (underruns & rest & Hevs & _).
      exists r, buf', w', rest. split; [reflexivity|].
      rewrite Hevs. vm_compute in Hrun. injection Hrun as _ _ <-.
      vm_compute in Hevs. injection Hevs as <- _. reflexivity.
    + vm_compute in Hrun. discriminate Hrun.
  - exact (onAudioReady_automatic working_platform 0 64 1%nat buffer16 2
             (mkWorld fresh_engine []) eq_refl).
Defined.

(** X13: the running engine on a stream without timestamps. *)
Lemma onAudioReady_unsupported_witness :
  exists r buf' w',
    onAudioReady working_platform 0 64 1%nat buffer16 2 unmeasured_world
      = Some (r, buf', w') /\
    engine w' = engine unmeasured_world /\
    count_events is_latency_event (new_events unmeasured_world w') = 0%nat.
Proof.
  destruct (onAudioReady working_platform 0 64 1%nat buffer16 2 unmeasured_world)
    as [[[r buf'] w']|] eqn:Hrun.
  - exists r, buf', w'. split; [reflexivity|].
    exact (onAudioReady_unsupported working_platform 0 64 1%nat buffer16 2
             unmeasured_world r buf' w' eq_refl Hrun).
  - vm_compute in Hrun. discriminate Hrun.
Defined.

(** X14: no frames asked of the running engine. *)
Lemma onAudioReady_no_frames_witness :
  exists w',
    onAudioReady working_platform 0 64 1%nat buffer16 0 running_world
      = Some (OBOE_CALLBACK_RESULT_CONTINUE, buffer16, w').
Proof.
  apply (onAudioReady_no_frames working_platform 0 64 1%nat buffer16 running_world).
  - reflexivity.
  - intros _. discriminate.
  - intros _. discriminate.
Defined.

(** X15: frame 961 presented now, 960 frames written, at 48 kHz: the
    latency is -20833 ns, where the rounded-down quotient gives -20834. *)
Lemma latency_estimate_frame_ahead_witness :
  calculateCurrentOutputLatencyMillis ahead_platform 1%nat running_world
    = Some ((OBOE_OK,
             Some (double_div (double_of_int64 (-20833)) (double_of_int64 1000000))),
            mkWorld running_engine
              [GetTimestamp 1%nat true OBOE_OK 961 5000000000;
               GetFramesWritten 1%nat 960;
               GetNanoseconds 5000000000]) /\
  -20833 = latency_estimate_nanos 961 5000000000 960 48000 5000000000 + 1.
Proof.
  destruct (latency_estimate_frame_ahead ahead_platform 1%nat running_world
              961 5000000000 960 5000000000) as (Hrun & Hoff);
    try reflexivity; try (unfold Int.in_range, Int.max64, Int.min64; cbn; lia).
  split; [exact Hrun|]. apply Hoff. vm_compute. discriminate.
Defined.

